(** * Backend-for-frontend gateway of the CTF platform: routers and
      interpreter client, embedded as effectful functions.

    The handlers of [app/routers] and the client of
    [app/services/interpreter_client.py] are written in a small monad that
    threads the state of the downstream services, may raise a Python
    exception, and records every downstream call it emits.

    Authentication ([Depends(get_current_user)]) has happened when a handler
    runs: the handler receives the token. Logging goes through [app.logger]
    and is left out. *)

From Stdlib Require Import ZArith List String Ascii Bool Lia.
Import ListNotations.
Open Scope string_scope.
Open Scope Z_scope.

(** ** Python values that travel as JSON *)

(** What [response.json()] yields, and what the handlers inspect: [None],
    booleans, integers, strings, lists and dicts (in insertion order). *)
#[warnings="-register-all"]
Inductive json : Type :=
| JNull
| JBool (b : bool)
| JNum (n : Z)
| JStr (s : string)
| JList (items : list json)
| JDict (fields : list (string * json)).

(** Python exceptions the code can meet. [HTTPException] is FastAPI's,
    [RequestError] is httpx's transport error and [InvalidURL] the error
    httpx raises for a URL it will not send (it is not a [RequestError]);
    the others are the built-in errors raised by subscripting, attribute
    access, iteration and parsing. *)
Inductive exn : Type :=
| HTTPException (status_code : Z) (detail : json)
| RequestError (msg : string)
| InvalidURL (msg : string)
| KeyError (key : string)
| TypeError
| AttributeError
| ValueError
| OverflowError.

Inductive outcome (A : Type) : Type :=
| Ret (a : A)
| Raise (e : exn).
Arguments Ret {A} a.
Arguments Raise {A} e.

(** Sequencing of pure steps that may raise. *)
Definition and_then {A B : Type} (o : outcome A) (k : A -> outcome B) : outcome B :=
  match o with
  | Ret a => k a
  | Raise e => Raise e
  end.

Notation "'let?' x := o 'in' k" := (and_then o (fun x => k))
  (at level 10, x name, o at level 100, k at level 200).

(** [bool(v)]: Python truthiness of a JSON value. *)
Definition truthy (v : json) : bool :=
  match v with
  | JNull => false
  | JBool b => b
  | JNum n => negb (n =? 0)
  | JStr s => negb (s =? "")%string
  | JList l => match l with [] => false | _ => true end
  | JDict d => match d with [] => false | _ => true end
  end.

Fixpoint lookup (k : string) (d : list (string * json)) : option json :=
  match d with
  | [] => None
  | (k', v) :: rest => if (k' =? k)%string then Some v else lookup k rest
  end.

(** [v[k]] for a string key: only a dict can be subscripted by a string. *)
Definition subscript (v : json) (k : string) : outcome json :=
  match v with
  | JDict d => match lookup k d with
               | Some x => Ret x
               | None => Raise (KeyError k)
               end
  | _ => Raise TypeError
  end.

(** [v.get(k, default)]: only a dict has the method. *)
Definition get_default (v : json) (k : string) (default : json) : outcome json :=
  match v with
  | JDict d => match lookup k d with
               | Some x => Ret x
               | None => Ret default
               end
  | _ => Raise AttributeError
  end.

(** [v.get(k)]. *)
Definition get (v : json) (k : string) : outcome json :=
  get_default v k JNull.

Fixpoint chars (s : string) : list json :=
  match s with
  | EmptyString => []
  | String c rest => JStr (String c EmptyString) :: chars rest
  end.

(** [for x in v]: the items a JSON value yields when iterated. *)
Definition iterate (v : json) : outcome (list json) :=
  match v with
  | JList l => Ret l
  | JDict d => Ret (map (fun kv => JStr (fst kv)) d)
  | JStr s => Ret (chars s)
  | _ => Raise TypeError
  end.

(** [len(v)]: lists, dicts and strings have a length. *)
Definition py_len (v : json) : outcome Z :=
  match v with
  | JList l => Ret (Z.of_nat (List.length l))
  | JDict d => Ret (Z.of_nat (List.length d))
  | JStr s => Ret (Z.of_nat (String.length s))
  | _ => Raise TypeError
  end.

(** [v == s] for a Python [str] [s]. *)
Definition eq_str (v : json) (s : string) : bool :=
  match v with
  | JStr t => (t =? s)%string
  | _ => false
  end.

(** [any(f(x) for x in xs)]: the generator is consumed left to right and
    stops at the first true item; an item that raises ends the scan. *)
Fixpoint py_any {A : Type} (f : A -> outcome bool) (xs : list A) : outcome bool :=
  match xs with
  | [] => Ret false
  | x :: rest =>
      match f x with
      | Ret true => Ret true
      | Ret false => py_any f rest
      | Raise e => Raise e
      end
  end.

(** [any(x[k] == s for x in v)]. *)
Definition any_field_eq (v : json) (k s : string) : outcome bool :=
  match iterate v with
  | Ret xs =>
      py_any (fun x => match subscript x k with
                       | Ret y => Ret (eq_str y s)
                       | Raise e => Raise e
                       end) xs
  | Raise e => Raise e
  end.

(** ** Datetimes *)

(** A [datetime]: the wall-clock reading in microseconds since
    0001-01-01T00:00:00, and the UTC offset of its [tzinfo] in microseconds
    ([None] for a naive datetime). *)
Record datetime : Type := mkDatetime {
  wall_us : Z;
  utcoffset : option Z
}.

(** [datetime.max] is 9999-12-31T23:59:59.999999: 3652059 days. *)
Definition MAX_US : Z := 3652059 * 86400000000.

Definition in_range (us : Z) : bool := (0 <=? us) && (us <? MAX_US).

(** The instant of an aware datetime on the UTC axis. *)
Definition utc_instant (d : datetime) : Z :=
  match utcoffset d with
  | Some off => wall_us d - off
  | None => wall_us d
  end.

(** [a < b] and [a > b] on aware datetimes compare instants. *)
Definition dt_lt (a b : datetime) : bool := utc_instant a <? utc_instant b.
Definition dt_gt (a b : datetime) : bool := utc_instant b <? utc_instant a.

(** [s.replace("Z", "+00:00")]. *)
Fixpoint replace_Z (s : string) : string :=
  match s with
  | EmptyString => EmptyString
  | String c rest =>
      if (c =? "Z")%char then "+00:00" ++ replace_Z rest
      else String c (replace_Z rest)
  end.

(** ** Downstream services *)

(** The arguments of a call [client.request(method, endpoint, json=...,
    params=...)]. *)
Record Request : Type := mkRequest {
  method : string;
  endpoint : string;
  json_body : option json;
  params : list (string * string)
}.

(** What comes back: the status code and the body as [response.json()]
    parses it ([None] when the body is not JSON). *)
Record Response : Type := mkResponse {
  status_code : Z;
  body : option json
}.

(** A downstream call, as the trace records it: [Http r] is one call of
    [client.request] with the arguments [r], [StartContainer p] one call of
    [orchester.start_container]. A call is recorded when it is made,
    whether it returns or raises; in particular a call that httpx refuses
    with [InvalidURL] before anything reaches the interpreter is recorded
    too. *)
Inductive event : Type :=
| Http (r : Request)
| StartContainer (payload : json).

(** The environment of the gateway. The interpreter is reached over HTTP;
    [client_request] is what a call of [client.request] does: it returns a
    response or raises an exception, an [httpx.RequestError] or any other
    (httpx raises [InvalidURL] for an endpoint that holds a control
    character), and it moves the downstream state.
    [orchester_start_container] stands for
    [app.services.orchester_client.orchester.start_container] and
    [ContainerInternalDTO] for the construction of that model from its four
    keyword arguments followed by its [model_dump]; neither
    [app/services/orchester_client.py] nor [app/schemas/container.py] is
    part of the files modelled here, so both are taken as given. [utcnow] and
    [fromisoformat] are [datetime.now(timezone.utc)] and
    [datetime.fromisoformat]. *)
Class Services : Type := {
  World : Type;
  client_request : Request -> World -> (Response + exn) * World;
  orchester_start_container : json -> World -> outcome json * World;
  ContainerInternalDTO : json -> json -> json -> json -> outcome json;
  utcnow : World -> Z;
  fromisoformat : string -> option datetime
}.

(** ** The monad of the handlers *)

Section Monad.
Context {S : Services}.

(** A computation reads the downstream state and yields its outcome, the
    new state and the downstream calls it made, oldest first. *)
Definition M (A : Type) : Type := World -> outcome A * World * list event.

Definition ret {A : Type} (a : A) : M A := fun w => (Ret a, w, []).

Definition raise {A : Type} (e : exn) : M A := fun w => (Raise e, w, []).

Definition bind {A B : Type} (m : M A) (k : A -> M B) : M B :=
  fun w =>
    match m w with
    | (Ret a, w1, t1) =>
        match k a w1 with
        | (r, w2, t2) => (r, w2, (t1 ++ t2)%list)
        end
    | (Raise e, w1, t1) => (Raise e, w1, t1)
    end.

(** [try: m except <every exception> as e: handler e]. *)
Definition try_except {A : Type} (m : M A) (handler : exn -> M A) : M A :=
  fun w =>
    match m w with
    | (Ret a, w1, t1) => (Ret a, w1, t1)
    | (Raise e, w1, t1) =>
        match handler e w1 with
        | (r, w2, t2) => (r, w2, (t1 ++ t2)%list)
        end
    end.

(** A pure step that may raise. *)
Definition lift {A : Type} (o : outcome A) : M A := fun w => (o, w, []).

(** [await client.request(...)]: the call is recorded, and returns the
    response or raises what the client raises. *)
Definition send (r : Request) : M Response :=
  fun w =>
    match client_request r w with
    | (inl response, w1) => (Ret response, w1, [Http r])
    | (inr exc, w1) => (Raise exc, w1, [Http r])
    end.

(** [await orchester.start_container(payload)]. *)
Definition start_container (payload : json) : M json :=
  fun w =>
    match orchester_start_container payload w with
    | (o, w1) => (o, w1, [StartContainer payload])
    end.

(** [datetime.now(timezone.utc)]. *)
Definition now_utc : M datetime :=
  fun w => (Ret (mkDatetime (utcnow w) (Some 0)), w, []).

Definition result {A : Type} (r : outcome A * World * list event) : outcome A :=
  fst (fst r).

Definition final {A : Type} (r : outcome A * World * list event) : World :=
  snd (fst r).

Definition calls {A : Type} (r : outcome A * World * list event) : list event :=
  snd r.
End Monad.

Notation "x <- m ;; k" := (bind m (fun x => k))
  (at level 61, m at next level, right associativity).

(** ** app/schemas *)

(** A pydantic model that [_dump] serialises with
    [model_dump(mode='json', exclude_unset=True)]. *)
Class BaseModel (A : Type) : Type := model_dump : A -> json.

Module schemas.

(** [app/schemas/auth.py] is not part of the files modelled here: the handlers read
    three string attributes of the token. *)
Module auth.
Record AuthToken : Type := mkAuthToken {
  id : string;
  username : string;
  role : string
}.
End auth.

(** [app/schemas/solve.py] is not part of the files modelled here: the handler reads two
    identifiers of the submission, and the client sends its dump, whatever
    that is. *)
Module solve.
Record SolveSubmitDTO : Type := mkSolveSubmitDTO {
  competitions_id : string;
  exercises_id : string;
  dumped : json
}.
#[global] Instance SolveSubmitDTO_model : BaseModel SolveSubmitDTO := dumped.
End solve.

(** [app/schemas/exercise.py] is not part of the files modelled here: the handler only
    passes the payload on, and the client sends its dump. *)
Module exercise.
Record ExerciseCreateDTO : Type := mkExerciseCreateDTO {
  dumped : json
}.
#[global] Instance ExerciseCreateDTO_model : BaseModel ExerciseCreateDTO := dumped.

Record ExerciseUpdateDTO : Type := mkExerciseUpdateDTO {
  dumped_changes : json
}.
#[global] Instance ExerciseUpdateDTO_model : BaseModel ExerciseUpdateDTO := dumped_changes.
End exercise.

(** [app/schemas/container.py] is not part of the files modelled here: the handler reads
    one attribute of the request. *)
Module container.
Record ContainerRequestDTO : Type := mkContainerRequestDTO {
  time_alive : json
}.
End container.

(** [app/schemas/attendance.py]. [users_id] defaults to [None];
    [users_id_set] tells whether the request carried the field, which is
    what [exclude_unset] looks at. *)
Module attendance.
Record AttendanceCreateDTO : Type := mkAttendanceCreateDTO {
  competitions_id : string;
  users_id : option string;
  users_id_set : bool
}.

Definition dump_AttendanceCreateDTO (a : AttendanceCreateDTO) : json :=
  JDict (("competitions_id", JStr (competitions_id a))
         :: (if users_id_set a
             then [("users_id", match users_id a with
                                | Some u => JStr u
                                | None => JNull
                                end)]
             else [])).

#[global] Instance AttendanceCreateDTO_model : BaseModel AttendanceCreateDTO :=
  dump_AttendanceCreateDTO.
End attendance.

End schemas.

(** ** app/services/interpreter_client.py *)

Module interpreter.
Section Client.
Context {S : Services}.

(** [response.json()]. *)
Definition response_json (resp : Response) : outcome json :=
  match body resp with
  | Some v => Ret v
  | None => Raise ValueError
  end.

Definition _request (method endpoint : string) (json_kw : option json)
    (params : list (string * string)) : M json :=
  try_except
    (response <- send (mkRequest method endpoint json_kw params) ;;
     if status_code response =? 404 then ret JNull
     else if status_code response =? 204 then ret JNull
     else if (400 <=? status_code response) && (status_code response <? 500) then
       parsed <- lift (response_json response) ;;
       detail <- lift (get_default parsed "detail"
                         (JStr "Erro na requisição ao Interpreter")) ;;
       raise (HTTPException (status_code response) detail)
     else if 500 <=? status_code response then
       raise (HTTPException 502 (JStr "Erro interno no Interpreter."))
     else lift (response_json response))
    (fun e =>
       match e with
       | RequestError exc =>
           raise (HTTPException 503 (JStr ("Falha de conexão: " ++ exc)))
       | _ => raise e
       end).

(** What [_request] makes of what the call of [client.request] did. *)
Definition classify (ans : Response + exn) : outcome json :=
  match ans with
  | inl response =>
      if status_code response =? 404 then Ret JNull
      else if status_code response =? 204 then Ret JNull
      else if (400 <=? status_code response) && (status_code response <? 500) then
        let? parsed := response_json response in
        let? detail := get_default parsed "detail"
                         (JStr "Erro na requisição ao Interpreter") in
        Raise (HTTPException (status_code response) detail)
      else if 500 <=? status_code response then
        Raise (HTTPException 502 (JStr "Erro interno no Interpreter."))
      else response_json response
  | inr (RequestError exc) =>
      Raise (HTTPException 503 (JStr ("Falha de conexão: " ++ exc)))
  | inr e => Raise e
  end.

(** Helper para serializar Pydantic models para JSON. *)
Definition _dump {A : Type} {model : BaseModel A} (data : A) : json :=
  model_dump data.

(* --- 2. COMPETITIONS --- *)
Definition get_competition (comp_id : string) : M json :=
  _request "GET" ("/competitions/" ++ comp_id) None [].

Definition get_competition_participants (comp_id : string) : M json :=
  _request "GET" ("/competitions/" ++ comp_id ++ "/participants") None [].

Definition get_competition_exercises (comp_id : string) : M json :=
  _request "GET" ("/competitions/" ++ comp_id ++ "/exercises") None [].

(* --- 4. EXERCISES --- *)
Definition list_all_exercises : M json :=
  _request "GET" "/exercises/" None [].

Definition get_exercise (ex_id : string) : M json :=
  _request "GET" ("/exercises/" ++ ex_id) None [].

Definition create_exercise {A : Type} {model : BaseModel A} (ex_data : A) : M json :=
  _request "POST" "/exercises/" (Some (_dump ex_data)) [].

Definition delete_exercise (ex_id : string) : M json :=
  _request "DELETE" ("/exercises/" ++ ex_id) None [].

(* --- 5. CONTAINERS --- *)
Definition get_container_by_exercise (ex_id : string) : M json :=
  _request "GET" ("/containers/exercise/" ++ ex_id) None [].

(** [container_data] arrives dumped, see [ContainerInternalDTO]. *)
Definition register_container (container_data : json) (exercises_id : string) : M json :=
  _request "POST" "/containers/" (Some container_data) [("exercises_id", exercises_id)].

(* --- 6. SOLVES & SCOREBOARD --- *)
Definition submit_flag {A : Type} {model : BaseModel A} (solve_data : A)
    (user_id : string) : M json :=
  _request "POST" "/solves/submit" (Some (_dump solve_data)) [("users_id", user_id)].

Definition get_scoreboard (comp_id : string) : M json :=
  _request "GET" ("/scoreboard/" ++ comp_id) None [].

(* --- 8. ATTENDANCE --- *)
Definition record_attendance {A : Type} {model : BaseModel A} (attendance_data : A)
    (user_id : string) : M json :=
  _request "POST" "/attendance/" (Some (_dump attendance_data)) [("users_id", user_id)].

Definition get_user_attendance (user_id : string) : M json :=
  _request "GET" ("/attendance/user/" ++ user_id) None [].

(* --- the other methods the routers call --- *)
Definition update_exercise {A : Type} {model : BaseModel A} (ex_id : string)
    (update_data : A) : M json :=
  _request "PATCH" ("/exercises/" ++ ex_id) (Some (_dump update_data)) [].

Definition link_exercise_to_competition (ex_id comp_id : string) : M json :=
  _request "POST" ("/exercises/" ++ ex_id ++ "/competition/" ++ comp_id) None [].

Definition link_exercise_to_tag (ex_id tag_id : string) : M json :=
  _request "POST" ("/exercises/" ++ ex_id ++ "/tags/" ++ tag_id) None [].

Definition get_exercise_competitions (ex_id : string) : M json :=
  _request "GET" ("/exercises/" ++ ex_id ++ "/competitions") None [].

Definition unlink_exercise_from_competition (ex_id comp_id : string) : M json :=
  _request "DELETE" ("/exercises/" ++ ex_id ++ "/competition/" ++ comp_id) None [].

Definition unlink_exercise_from_tag (ex_id tag_id : string) : M json :=
  _request "DELETE" ("/exercises/" ++ ex_id ++ "/tags/" ++ tag_id) None [].

Definition get_user_solves (user_id : string) : M json :=
  _request "GET" ("/solves/" ++ user_id) None [].

Definition get_global_scoreboard : M json :=
  _request "GET" "/scoreboard/global" None [].

Definition get_all_attendances : M json :=
  _request "GET" "/attendance/" None [].

Definition get_competition_attendance (comp_id : string) : M json :=
  _request "GET" ("/attendance/competition/" ++ comp_id) None [].
End Client.
End interpreter.

(** ** app/routers *)

Module routers.
Import schemas.

(** *** app/routers/exercises.py *)
Module exercises.
Section Handlers.
Context {S : Services}.

Definition list_all_exercises (user : auth.AuthToken) : M json :=
  interpreter.list_all_exercises.

(** [not container or not container.get("is_active")]. *)
Definition container_inactive (container : json) : outcome bool :=
  if negb (truthy container) then Ret true
  else let? active := get container "is_active" in Ret (negb (truthy active)).

Definition get_connection_info (ex_id comp_id : string) (user : auth.AuthToken) : M json :=
  container <- interpreter.get_container_by_exercise ex_id ;;
  inactive <- lift (container_inactive container) ;;
  if inactive : bool then
    raise (HTTPException 404 (JStr "A infraestrutura deste desafio não está ativa"))
  else
    connection <- lift (subscript container "connection") ;;
    port <- lift (subscript container "port") ;;
    ret (JDict [("connection", connection); ("port", port)]).

(** The inner function of [submit_flag]. A value that is not a [str] has no
    [tzinfo]; [astimezone] overflows outside [datetime.min, datetime.max]. *)
Definition ensure_utc (dt_val : json) : outcome datetime :=
  match dt_val with
  | JStr s =>
      match fromisoformat (replace_Z s) with
      | Some d =>
          match utcoffset d with
          | None => Ret (mkDatetime (wall_us d) (Some 0))
          | Some off =>
              if in_range (wall_us d - off)
              then Ret (mkDatetime (wall_us d - off) (Some 0))
              else Raise OverflowError
          end
      | None => Raise ValueError
      end
  | _ => Raise AttributeError
  end.

(** The body of the [try] of [submit_flag]. *)
Definition competition_window (comp : json) : outcome (datetime * datetime) :=
  let? s := subscript comp "start_date" in
  let? start_date := ensure_utc s in
  let? e := subscript comp "end_date" in
  let? end_date := ensure_utc e in
  Ret (start_date, end_date).

Definition submit_flag (payload : solve.SolveSubmitDTO) (user : auth.AuthToken) : M json :=
  comp <- interpreter.get_competition (solve.competitions_id payload) ;;
  if negb (truthy comp) then
    raise (HTTPException 404 (JStr "Competição não encontrada"))
  else
    now <- now_utc ;;
    window <- try_except (lift (competition_window comp))
                (fun e => raise (HTTPException 500
                            (JStr "Erro interno ao processar datas da competição"))) ;;
    let (start_date, end_date) := window : datetime * datetime in
    if dt_lt now start_date then
      raise (HTTPException 400 (JStr "A competição ainda não começou"))
    else if dt_gt now end_date then
      raise (HTTPException 400 (JStr "A competição já terminou"))
    else
      comp_exercises <- interpreter.get_competition_exercises (solve.competitions_id payload) ;;
      member <- lift (any_field_eq comp_exercises "id" (solve.exercises_id payload)) ;;
      if negb member then
        raise (HTTPException 400 (JStr "Este exercício não pertence a esta competição"))
      else
        interpreter.submit_flag payload (auth.id user).

Definition create_exercise (payload : exercise.ExerciseCreateDTO)
    (user : auth.AuthToken) : M json :=
  if negb (auth.role user =? "admin")%string then
    raise (HTTPException 403 (JStr "Acesso negado"))
  else interpreter.create_exercise payload.

(** [not exercise or not exercise.get("docker_image")]. *)
Definition no_docker_image (exercise : json) : outcome bool :=
  if negb (truthy exercise) then Ret true
  else let? image := get exercise "docker_image" in Ret (negb (truthy image)).

(** Step 2 of the deployment: the request for the Orchester. *)
Definition orchester_payload (exercise : json)
    (payload : container.ContainerRequestDTO) : outcome json :=
  let? image_link := subscript exercise "docker_image" in
  let? exercise_name := subscript exercise "name" in
  Ret (JDict [("image_link", image_link);
              ("time_alive", container.time_alive payload);
              ("exercise_name", exercise_name);
              ("callback_url", JStr "http://backend:8000/containers/callback")]).

(** Step 4 of the deployment: the container to register. *)
Definition container_data (exercise orchestrator_resp : json) : outcome json :=
  let? docker_id := subscript orchestrator_resp "container_id" in
  let? image_tag := subscript exercise "docker_image" in
  let? port := subscript orchestrator_resp "host_port" in
  let? connection := subscript orchestrator_resp "service_url" in
  ContainerInternalDTO docker_id image_tag port connection.

Definition deploy_exercise_infrastructure (ex_id : string)
    (payload : container.ContainerRequestDTO) (user : auth.AuthToken) : M json :=
  if negb (auth.role user =? "admin")%string then
    raise (HTTPException 403 (JStr "Acesso negado"))
  else
    exercise <- interpreter.get_exercise ex_id ;;
    unconfigured <- lift (no_docker_image exercise) ;;
    if unconfigured : bool then
      raise (HTTPException 400 (JStr "Exercício sem imagem Docker configurada"))
    else
      request <- lift (orchester_payload exercise payload) ;;
      orchestrator_resp <- start_container request ;;
      data <- lift (container_data exercise orchestrator_resp) ;;
      interpreter.register_container data ex_id.

Definition get_my_solves (user : auth.AuthToken) : M json :=
  interpreter.get_user_solves (auth.id user).

Definition get_exercise_admin (ex_id : string) (user : auth.AuthToken) : M json :=
  if negb (auth.role user =? "admin")%string then
    raise (HTTPException 403 (JStr "Acesso negado"))
  else
    ex <- interpreter.get_exercise ex_id ;;
    if negb (truthy ex) then
      raise (HTTPException 404 (JStr "Exercício não encontrado"))
    else ret ex.

Definition link_to_competition (ex_id comp_id : string) (user : auth.AuthToken) : M json :=
  if negb (auth.role user =? "admin")%string then
    raise (HTTPException 403 (JStr "Acesso negado"))
  else interpreter.link_exercise_to_competition ex_id comp_id.

Definition link_to_tag (ex_id tag_id : string) (user : auth.AuthToken) : M json :=
  if negb (auth.role user =? "admin")%string then
    raise (HTTPException 403 (JStr "Acesso negado"))
  else interpreter.link_exercise_to_tag ex_id tag_id.

Definition update_exercise (ex_id : string) (payload : exercise.ExerciseUpdateDTO)
    (user : auth.AuthToken) : M json :=
  if negb (auth.role user =? "admin")%string then
    raise (HTTPException 403 (JStr "Acesso negado"))
  else interpreter.update_exercise ex_id payload.

Definition delete_exercise (ex_id : string) (user : auth.AuthToken) : M json :=
  if negb (auth.role user =? "admin")%string then
    raise (HTTPException 403 (JStr "Acesso negado"))
  else interpreter.delete_exercise ex_id.

Definition get_exercise_competitions (ex_id : string) (user : auth.AuthToken) : M json :=
  if negb (auth.role user =? "admin")%string then
    raise (HTTPException 403 (JStr "Acesso negado"))
  else interpreter.get_exercise_competitions ex_id.

Definition unlink_from_competition (ex_id comp_id : string) (user : auth.AuthToken) : M json :=
  if negb (auth.role user =? "admin")%string then
    raise (HTTPException 403 (JStr "Acesso negado"))
  else interpreter.unlink_exercise_from_competition ex_id comp_id.

Definition unlink_from_tag (ex_id tag_id : string) (user : auth.AuthToken) : M json :=
  if negb (auth.role user =? "admin")%string then
    raise (HTTPException 403 (JStr "Acesso negado"))
  else interpreter.unlink_exercise_from_tag ex_id tag_id.
End Handlers.
End exercises.

(** *** app/routers/scoreboard.py *)
Module scoreboard.
Section Handlers.
Context {S : Services}.

Definition get_competition_scoreboard (comp_id : string) (user : auth.AuthToken) : M json :=
  _ <- (if negb (auth.role user =? "admin")%string then
          participants <- interpreter.get_competition_participants comp_id ;;
          is_registered <- lift (any_field_eq participants "id" (auth.id user)) ;;
          if negb is_registered then
            raise (HTTPException 403
              (JStr "Você precisa estar inscrito nesta competição para ver o placar."))
          else ret tt
        else ret tt) ;;
  interpreter.get_scoreboard comp_id.

Definition get_global_scoreboard (user : auth.AuthToken) : M json :=
  interpreter.get_global_scoreboard.
End Handlers.
End scoreboard.

(** *** app/routers/attendance.py *)
Module attendance.
Section Handlers.
Context {S : Services}.

(** [payload.users_id if (user.role == "admin" and payload.users_id) else user.id]. *)
Definition target_user_id (payload : attendance.AttendanceCreateDTO)
    (user : auth.AuthToken) : string :=
  match attendance.users_id payload with
  | Some u =>
      if (auth.role user =? "admin")%string && negb (u =? "")%string then u
      else auth.id user
  | None => auth.id user
  end.

(** The two [except] clauses of [record_attendance], as a map on outcomes: an [HTTPException] passes, any
    other exception becomes a 500. *)
Definition reraised (o : outcome json) : outcome json :=
  match o with
  | Ret v => Ret v
  | Raise (HTTPException c d) => Raise (HTTPException c d)
  | Raise _ => Raise (HTTPException 500 (JStr "Erro interno ao registrar presença."))
  end.

Definition record_attendance (payload : attendance.AttendanceCreateDTO)
    (user : auth.AuthToken) : M json :=
  let target := target_user_id payload user in
  try_except
    (user_history <- interpreter.get_user_attendance target ;;
     duplicate <- lift (any_field_eq user_history "competitions_id"
                          (attendance.competitions_id payload)) ;;
     if duplicate : bool then
       raise (HTTPException 400
         (JStr "Presença já registrada para este usuário nesta competição."))
     else
       interpreter.record_attendance payload target)
    (fun e =>
       match e with
       | HTTPException _ _ => raise e
       | _ => raise (HTTPException 500 (JStr "Erro interno ao registrar presença."))
       end).

(** The three reading handlers share one shape: the interpreter is asked
    inside a [try] whose [except Exception] answers 500, and the log line
    inside that [try] takes [len(attendances)]. *)
Definition get_all_attendances (user : auth.AuthToken) : M json :=
  if negb (auth.role user =? "admin")%string then
    raise (HTTPException 403 (JStr "Acesso restrito a administradores."))
  else
    try_except
      (attendances <- interpreter.get_all_attendances ;;
       count <- lift (py_len attendances) ;;
       ret attendances)
      (fun e => raise (HTTPException 500 (JStr "Erro interno ao processar consulta."))).

Definition get_user_attendance (user_id : string) (user : auth.AuthToken) : M json :=
  if negb (auth.role user =? "admin")%string && negb (auth.id user =? user_id)%string then
    raise (HTTPException 403 (JStr "Acesso negado ao histórico de terceiros."))
  else
    try_except
      (attendances <- interpreter.get_user_attendance user_id ;;
       count <- lift (py_len attendances) ;;
       ret attendances)
      (fun e => raise (HTTPException 500 (JStr "Erro ao recuperar histórico."))).

Definition get_competition_attendance (competition_id : string)
    (user : auth.AuthToken) : M json :=
  if negb (auth.role user =? "admin")%string then
    raise (HTTPException 403 (JStr "Acesso restrito a administradores."))
  else
    try_except
      (attendances <- interpreter.get_competition_attendance competition_id ;;
       count <- lift (py_len attendances) ;;
       ret attendances)
      (fun e => raise (HTTPException 500
                         (JStr "Erro ao recuperar registros da competição."))).
End Handlers.
End attendance.

End routers.

(** ** Observing the downstream calls *)

(** Whether a trace holds a call of [client.request] with this method and
    this endpoint. *)
Definition made_call (m e : string) (t : list event) : bool :=
  existsb (fun ev => match ev with
                     | Http r => (method r =? m)%string && (endpoint r =? e)%string
                     | StartContainer _ => false
                     end) t.

(** Whether a trace holds a call of the orchestrator. *)
Definition started_container (t : list event) : bool :=
  existsb (fun ev => match ev with
                     | Http _ => false
                     | StartContainer _ => true
                     end) t.

(** A downstream call that only reads: a [GET] without a body. *)
Definition is_read (ev : event) : bool :=
  match ev with
  | Http r => (method r =? "GET")%string
              && match json_body r with None => true | Some _ => false end
  | StartContainer _ => false
  end.

(** Whether the letter Z occurs in a string. *)
Fixpoint contains_Z (s : string) : bool :=
  match s with
  | EmptyString => false
  | String c rest => (c =? "Z")%char || contains_Z rest
  end.

(** What a handler that reads attendances may answer, given its two
    messages: a value that has a length, a 403 or a 500. *)
Definition read_answer (forbidden internal : string) (o : outcome json) : Prop :=
  match o with
  | Ret v => exists n, py_len v = Ret n
  | Raise x => x = HTTPException 403 (JStr forbidden)
               \/ x = HTTPException 500 (JStr internal)
  end.

(** The item [x] is a dict that has the key [k]. *)
Definition has_field (k : string) (x : json) : Prop :=
  exists v, subscript x k = Ret v.

(** The item [x] is a dict whose [k] is the string [s]. *)
Definition field_is (k s : string) (x : json) : Prop :=
  subscript x k = Ret (JStr s).

(** The date under [k] of a competition cannot be read: the key is missing
    (or the competition is not a dict), the value is not a string, or the
    string does not parse. *)
Definition unreadable_date {S : Services} (comp : json) (k : string) : Prop :=
  match subscript comp k with
  | Ret (JStr s) => fromisoformat (replace_Z s) = None
  | Ret _ => True
  | Raise _ => True
  end.

(** ** A small deployment, to run the handlers on *)

Module demo.

(** Reads exactly [n] decimal digits. *)
Fixpoint digits (n : nat) (acc : Z) (s : string) : option (Z * string) :=
  match n with
  | O => Some (acc, s)
  | Datatypes.S n' =>
      match s with
      | String c rest =>
          let v := Z.of_nat (nat_of_ascii c) in
          if (48 <=? v) && (v <=? 57) then digits n' (10 * acc + (v - 48)) rest
          else None
      | EmptyString => None
      end
  end.

Definition expect (c : ascii) (s : string) : option string :=
  match s with
  | String c' rest => if (c' =? c)%char then Some rest else None
  | EmptyString => None
  end.

(** Days from 0001-01-01 to the given day of the proleptic Gregorian
    calendar. *)
Definition days_from_civil (y m d : Z) : Z :=
  let y' := if m <=? 2 then y - 1 else y in
  let era := y' / 400 in
  let yoe := y' - era * 400 in
  let doy := (153 * (if 2 <? m then m - 3 else m + 9) + 2) / 5 + d - 1 in
  let doe := yoe * 365 + yoe / 4 - yoe / 100 + doy in
  era * 146097 + doe - 306.

Definition opt_bind {A B : Type} (o : option A) (k : A -> option B) : option B :=
  match o with
  | Some a => k a
  | None => None
  end.

(** [+HH:MM] or [-HH:MM], in microseconds. *)
Definition offset (s : string) : option Z :=
  match s with
  | String sign rest =>
      opt_bind (digits 2 0 rest) (fun '(hh, r1) =>
      opt_bind (expect ":" r1) (fun r2 =>
      opt_bind (digits 2 0 r2) (fun '(mm, r3) =>
        match r3 with
        | EmptyString =>
            let off := (hh * 60 + mm) * 60000000 in
            if negb ((hh <? 24) && (mm <? 60)) then None
            else if (sign =? "+")%char then Some off
            else if (sign =? "-")%char then Some (- off)
            else None
        | _ => None
        end)))
  | EmptyString => None
  end.

(** The number of days of a month. *)
Definition days_in_month (y m : Z) : Z :=
  if m =? 2 then
    if ((y mod 4 =? 0) && negb (y mod 100 =? 0)) || (y mod 400 =? 0) then 29 else 28
  else if (m =? 4) || (m =? 6) || (m =? 9) || (m =? 11) then 30
  else 31.

(** The part of [datetime.fromisoformat] that reads
    [YYYY-MM-DDTHH:MM:SS] with an optional [+HH:MM] or [-HH:MM]. Other
    strings that Python reads (a fraction of a second, a date alone, a
    space for the T) are not read here. It stands in for the parameter
    [fromisoformat] in the examples only. *)
Definition parse_iso (s : string) : option datetime :=
  opt_bind (digits 4 0 s) (fun '(y, r) =>
  opt_bind (expect "-" r) (fun r =>
  opt_bind (digits 2 0 r) (fun '(mo, r) =>
  opt_bind (expect "-" r) (fun r =>
  opt_bind (digits 2 0 r) (fun '(d, r) =>
  opt_bind (expect "T" r) (fun r =>
  opt_bind (digits 2 0 r) (fun '(hh, r) =>
  opt_bind (expect ":" r) (fun r =>
  opt_bind (digits 2 0 r) (fun '(mi, r) =>
  opt_bind (expect ":" r) (fun r =>
  opt_bind (digits 2 0 r) (fun '(ss, r) =>
    if (1 <=? y) && (1 <=? mo) && (mo <=? 12) && (1 <=? d)
       && (d <=? days_in_month y mo) && (hh <? 24) && (mi <? 60) && (ss <? 60)
    then
      let wall := days_from_civil y mo d * 86400000000
                  + ((hh * 60 + mi) * 60 + ss) * 1000000 in
      match r with
      | EmptyString => Some (mkDatetime wall None)
      | _ => opt_bind (offset r) (fun off => Some (mkDatetime wall (Some off)))
      end
    else None))))))))))).

(** The downstream state: the clock, the answers of the interpreter and of
    the orchestrator, and how many calls have been served so far. *)
Record world : Type := mkWorld {
  clock : Z;
  interpreter_answers : Request -> Response + exn;
  orchester_answers : json -> outcome json;
  served : nat
}.

Definition serve (w : world) : world :=
  mkWorld (clock w) (interpreter_answers w) (orchester_answers w) (Datatypes.S (served w)).

Definition services : Services := {|
  World := world;
  client_request := fun r w => (interpreter_answers w r, serve w);
  orchester_start_container := fun p w => (orchester_answers w p, serve w);
  ContainerInternalDTO := fun docker_id image_tag port connection =>
    Ret (JDict [("docker_id", docker_id); ("image_tag", image_tag);
                ("port", port); ("connection", connection)]);
  utcnow := clock;
  fromisoformat := parse_iso
|}.

Definition ok (v : json) : Response + exn := inl (mkResponse 200 (Some v)).

Definition pwn101 : json :=
  JDict [("id", JStr "e1"); ("name", JStr "pwn101"); ("docker_image", JStr "ctf/pwn101:1")].

Definition quiz : json :=
  JDict [("id", JStr "e2"); ("name", JStr "quiz"); ("docker_image", JNull)].

Definition spring_ctf : json :=
  JDict [("id", JStr "c1");
         ("start_date", JStr "2024-03-01T12:00:00Z");
         ("end_date", JStr "2024-03-02T09:00:00-03:00")].

(** An interpreter that knows one competition, two exercises, one running
    container, one participant and one attendance record. *)
Definition interpreter_db (r : Request) : Response + exn :=
  let at_ (m e : string) := ((method r =? m)%string && (endpoint r =? e)%string)%bool in
  if at_ "GET" "/competitions/c1" then ok spring_ctf
  else if at_ "GET" "/competitions/c1/exercises" then ok (JList [pwn101])
  else if at_ "GET" "/competitions/c1/participants" then ok (JList [JDict [("id", JStr "u1")]])
  else if at_ "POST" "/solves/submit" then ok (JDict [("correct", JBool true)])
  else if at_ "GET" "/exercises/" then ok (JList [pwn101; quiz])
  else if at_ "GET" "/exercises/e1" then ok pwn101
  else if at_ "GET" "/exercises/e2" then ok quiz
  else if at_ "DELETE" "/exercises/e1" then inl (mkResponse 204 None)
  else if at_ "GET" "/containers/exercise/e1" then
    ok (JDict [("is_active", JBool true); ("connection", JStr "10.0.0.7"); ("port", JNum 31337)])
  else if at_ "POST" "/containers/" then inl (mkResponse 201 (Some (JDict [("id", JStr "k1")])))
  else if at_ "GET" "/attendance/user/u1" then
    ok (JList [JDict [("id", JStr "a1"); ("users_id", JStr "u1"); ("competitions_id", JStr "c1")]])
  else if at_ "GET" "/attendance/user/u2" then ok (JList [])
  else if at_ "POST" "/attendance/" then inl (mkResponse 201 (Some (JDict [("id", JStr "a2")])))
  else if at_ "GET" "/scoreboard/c1" then ok (JList [JDict [("username", JStr "ana"); ("score", JNum 300)]])
  else if at_ "GET" "/health" then inl (mkResponse 500 (Some (JDict [("detail", JStr "boom")])))
  else if at_ "POST" "/exercises/" then
    inl (mkResponse 422 (Some (JDict [("detail", JStr "name is required")])))
  else if at_ "GET" "/tags/" then inr (RequestError "All connection attempts failed")
  else inl (mkResponse 404 (Some (JDict [("detail", JStr "Not Found")]))).

Definition orchester_up (payload : json) : outcome json :=
  Ret (JDict [("container_id", JStr "4f2a"); ("host_port", JNum 31337);
              ("service_url", JStr "10.0.0.7")]).

Definition orchester_down (payload : json) : outcome json :=
  Raise (HTTPException 503 (JStr "orchester unavailable")).

(** The deployment at a given reading of the clock. *)
Definition at_time (us : Z) : world := mkWorld us interpreter_db orchester_up O.

(** 2024-03-01T08:00:00, 2024-03-01T18:00:00 and 2024-03-03T00:00:00 UTC. *)
Definition before_start : Z := 738945 * 86400000000 + 8 * 3600000000.
Definition during : Z := 738945 * 86400000000 + 18 * 3600000000.
Definition after_end : Z := 738947 * 86400000000.

Definition ana : schemas.auth.AuthToken := schemas.auth.mkAuthToken "u1" "ana" "student".
Definition bob : schemas.auth.AuthToken := schemas.auth.mkAuthToken "u2" "bob" "student".
Definition root : schemas.auth.AuthToken := schemas.auth.mkAuthToken "u0" "root" "admin".

Definition flag_for (ex_id : string) : schemas.solve.SolveSubmitDTO :=
  schemas.solve.mkSolveSubmitDTO "c1" ex_id
    (JDict [("competitions_id", JStr "c1"); ("exercises_id", JStr ex_id);
            ("content", JStr "flag{x}")]).


(** Whether a string holds a control character, which httpx will not put
    in a URL. *)
Fixpoint has_control (s : string) : bool :=
  match s with
  | EmptyString => false
  | String c rest =>
      let n := nat_of_ascii c in
      (Nat.ltb n 32 || Nat.eqb n 127)%bool || has_control rest
  end.

(** An endpoint with a line feed in it. *)
Definition two_lines : string := "/exercises/a" ++ String "010"%char "b".

(** The same interpreter, which also lists attendances and solves, answers
    [GET /version] with a page that is not JSON, and whose client refuses an
    endpoint that holds a control character. *)
Definition interpreter_db_full (r : Request) : Response + exn :=
  let at_ (m e : string) := ((method r =? m)%string && (endpoint r =? e)%string)%bool in
  let a1 := JDict [("id", JStr "a1"); ("users_id", JStr "u1"); ("competitions_id", JStr "c1")] in
  if has_control (endpoint r)
  then inr (InvalidURL "Invalid non-printable ASCII character in URL")
  else if at_ "GET" "/attendance/" then ok (JList [a1])
  else if at_ "GET" "/attendance/competition/c1" then ok (JList [a1])
  else if at_ "GET" "/solves/u1" then ok (JList [])
  else if at_ "GET" "/version" then inl (mkResponse 200 None)
  else if at_ "GET" "/teapot" then inl (mkResponse 418 (Some (JList [JStr "short and stout"])))
  else interpreter_db r.

Definition full_at_time (us : Z) : world := mkWorld us interpreter_db_full orchester_up O.

(** A competition whose end date was stored as a number. *)
Definition broken_ctf : json :=
  JDict [("id", JStr "c2"); ("start_date", JStr "2024-03-01T12:00:00Z");
         ("end_date", JNum 1709380800)].

Definition interpreter_db_broken (r : Request) : Response + exn :=
  if ((method r =? "GET")%string && (endpoint r =? "/competitions/c2")%string)%bool
  then ok broken_ctf
  else if ((method r =? "GET")%string && (endpoint r =? "/competitions/c3")%string)%bool
  then ok spring_ctf
  else if ((method r =? "GET")%string
           && (endpoint r =? "/containers/exercise/e2")%string)%bool
  then ok (JDict [("is_active", JBool false); ("connection", JStr "10.0.0.8");
                  ("port", JNum 31338)])
  else interpreter_db r.

Definition broken_at_time (us : Z) : world :=
  mkWorld us interpreter_db_broken orchester_up O.

Definition flag_c2 : schemas.solve.SolveSubmitDTO :=
  schemas.solve.mkSolveSubmitDTO "c2" "e1"
    (JDict [("competitions_id", JStr "c2"); ("exercises_id", JStr "e1");
            ("content", JStr "flag{x}")]).

(** A submission to a competition that [interpreter_db_broken] knows, but
    whose exercises it does not list. *)
Definition flag_c3 : schemas.solve.SolveSubmitDTO :=
  schemas.solve.mkSolveSubmitDTO "c3" "e1"
    (JDict [("competitions_id", JStr "c3"); ("exercises_id", JStr "e1");
            ("content", JStr "flag{x}")]).

(** An interpreter that cannot be reached. *)
Definition interpreter_down (r : Request) : Response + exn :=
  inr (RequestError "All connection attempts failed").

Definition outage : world := mkWorld during interpreter_down orchester_up O.

(** A submission to a competition the interpreter does not know. *)
Definition stray_flag : schemas.solve.SolveSubmitDTO :=
  schemas.solve.mkSolveSubmitDTO "c9" "e1"
    (JDict [("competitions_id", JStr "c9"); ("exercises_id", JStr "e1");
            ("content", JStr "flag{x}")]).

End demo.

(** * Properties *)

Import schemas.

(** ** The client *)

Section ClientFacts.
Context {S : Services}.

(** Every run of [_request] calls [client.request] exactly once, and leaves
    the downstream state where that call left it. *)
Lemma request_run (m e : string) (j : option json) (p : list (string * string))
    (w : World) :
  interpreter._request m e j p w =
  (interpreter.classify (fst (client_request (mkRequest m e j p) w)),
   snd (client_request (mkRequest m e j p) w),
   [Http (mkRequest m e j p)]).
Proof.
  unfold interpreter._request, try_except, bind, send.
  destruct (client_request (mkRequest m e j p) w) as [[resp | exc] w1];
    cbn [fst snd interpreter.classify].
  2: { destruct exc; reflexivity. }
  unfold ret, raise, lift.
  destruct (status_code resp =? 404); [reflexivity |].
  destruct (status_code resp =? 204); [reflexivity |].
  unfold interpreter.response_json.
  destruct ((400 <=? status_code resp) && (status_code resp <? 500)).
  - destruct (body resp) as [v |]; cbn [and_then]; [| reflexivity].
    destruct v; cbn [get_default and_then]; try reflexivity.
    destruct (lookup "detail" fields); reflexivity.
  - destruct (500 <=? status_code resp); [reflexivity |].
    destruct (body resp); reflexivity.
Qed.

Lemma request_calls (m e : string) (j : option json) (p : list (string * string))
    (w : World) :
  calls (interpreter._request m e j p w) = [Http (mkRequest m e j p)].
Proof. rewrite request_run. reflexivity. Qed.

Lemma request_calls_inv (m e : string) (j : option json) (p : list (string * string))
    (w : World) (o : outcome json) (w1 : World) (t1 : list event) :
  interpreter._request m e j p w = (o, w1, t1) ->
  t1 = [Http (mkRequest m e j p)].
Proof. rewrite request_run. intros H. injection H as _ _ <-. reflexivity. Qed.
End ClientFacts.

(** ** Linear scans *)

Lemma eq_str_true (v : json) (s : string) : eq_str v s = true <-> v = JStr s.
Proof.
  destruct v; simpl; split; intros H; try discriminate.
  - apply String.eqb_eq in H. congruence.
  - injection H as ->. apply String.eqb_refl.
Qed.

(** The scan [any(x[k] == s for x in items)] over items that all have the
    key decides whether some item has [s] under [k]. *)
Lemma any_field_eq_found (k s : string) (items : list json) :
  Forall (has_field k) items ->
  (exists x, In x items /\ field_is k s x) ->
  any_field_eq (JList items) k s = Ret true.
Proof.
  unfold any_field_eq. simpl.
  induction 1 as [| x rest [v Hv] _ IH]; intros [y [Hin Hy]].
  - destruct Hin.
  - simpl. rewrite Hv. destruct (eq_str v s) eqn:Heq; [reflexivity |].
    apply IH. destruct Hin as [<- | Hin].
    + unfold field_is in Hy. rewrite Hv in Hy. injection Hy as ->.
      simpl in Heq. rewrite String.eqb_refl in Heq. discriminate.
    + exists y. split; assumption.
Qed.

Lemma any_field_eq_absent (k s : string) (items : list json) :
  Forall (has_field k) items ->
  ~ (exists x, In x items /\ field_is k s x) ->
  any_field_eq (JList items) k s = Ret false.
Proof.
  unfold any_field_eq. simpl.
  induction 1 as [| x rest [v Hv] _ IH]; intros Hno; [reflexivity |].
  simpl. rewrite Hv. destruct (eq_str v s) eqn:Heq.
  - exfalso. apply Hno. exists x. split; [left; reflexivity |].
    apply eq_str_true in Heq. unfold field_is. congruence.
  - apply IH. intros [y [Hin Hy]]. apply Hno. exists y. split; [right |]; assumption.
Qed.

(** A scan that answers [True] has met an item with [s] under [k]. *)
Lemma any_field_eq_true_inv (k s : string) (items : list json) :
  any_field_eq (JList items) k s = Ret true ->
  exists x, In x items /\ field_is k s x.
Proof.
  unfold any_field_eq. simpl.
  induction items as [| x rest IH]; simpl; intros H; [discriminate |].
  destruct (subscript x k) as [v | err] eqn:Hv; [| discriminate].
  destruct (eq_str v s) eqn:Heq.
  - exists x. split; [left; reflexivity |].
    apply eq_str_true in Heq. unfold field_is. congruence.
  - destruct (IH H) as [y [Hin Hy]]. exists y. split; [right |]; assumption.
Qed.

(** Over items that all have the key, the scan does not raise: its answer
    is [True] exactly when some item has [s] under [k]. *)
Lemma any_field_eq_decides (k s : string) (items : list json) :
  Forall (has_field k) items ->
  (any_field_eq (JList items) k s = Ret true
   /\ exists x, In x items /\ field_is k s x)
  \/
  (any_field_eq (JList items) k s = Ret false
   /\ ~ exists x, In x items /\ field_is k s x).
Proof.
  intros Hall.
  assert (Hret : exists b, any_field_eq (JList items) k s = Ret b).
  { unfold any_field_eq. simpl.
    induction Hall as [| x rest [v Hv] _ [b IH]]; simpl; [exists false; reflexivity |].
    rewrite Hv. destruct (eq_str v s); [exists true | exists b]; auto. }
  destruct Hret as [[|] Hb].
  - left. split; [assumption |]. apply any_field_eq_true_inv. assumption.
  - right. split; [assumption |]. intros Hex.
    rewrite (any_field_eq_found _ _ _ Hall Hex) in Hb. discriminate.
Qed.

Lemma made_call_app (m e : string) (t1 t2 : list event) :
  made_call m e (t1 ++ t2)%list = made_call m e t1 || made_call m e t2.
Proof. apply existsb_app. Qed.

(** ** [InterpreterClient._request]: mapping of downstream outcomes *)

(** C10. [_request] returns [None] for every downstream response with status
    404 and for every response with status 204, having sent just that one
    request; so [delete_exercise] yields [None] both when the deletion
    succeeded with 204 and when the interpreter answered 404 because the
    exercise does not exist. *)
Theorem request_none_on_404_and_204 (S : Services) :
  (forall m e j p (w : World) resp w1,
      client_request (mkRequest m e j p) w = (inl resp, w1) ->
      status_code resp = 404 \/ status_code resp = 204 ->
      interpreter._request m e j p w = (Ret JNull, w1, [Http (mkRequest m e j p)]))
  /\
  (forall ex_id (w : World) resp w1,
      client_request (mkRequest "DELETE" ("/exercises/" ++ ex_id) None []) w = (inl resp, w1) ->
      status_code resp = 404 \/ status_code resp = 204 ->
      result (interpreter.delete_exercise ex_id w) = Ret JNull).
Proof.
  assert (Hreq : forall m e j p (w : World) resp w1,
      client_request (mkRequest m e j p) w = (inl resp, w1) ->
      status_code resp = 404 \/ status_code resp = 204 ->
      interpreter._request m e j p w = (Ret JNull, w1, [Http (mkRequest m e j p)])).
  { intros m e j p w resp w1 Hans Hcode.
    rewrite request_run, Hans. simpl.
    destruct Hcode as [Hc | Hc]; rewrite Hc; reflexivity. }
  split; [exact Hreq |].
  intros ex_id w resp w1 Hans Hcode.
  unfold interpreter.delete_exercise.
  rewrite (Hreq _ _ _ _ _ _ _ Hans Hcode). reflexivity.
Qed.

Lemma request_none_on_404_and_204_witness :
  result (interpreter.delete_exercise (S := demo.services) "e1" (demo.at_time 0)) = Ret JNull
  /\ result (interpreter.delete_exercise (S := demo.services) "nope" (demo.at_time 0)) = Ret JNull.
Proof.
  split.
  - apply (proj2 (request_none_on_404_and_204 demo.services) "e1" (demo.at_time 0)
             (mkResponse 204 None) (demo.serve (demo.at_time 0)));
      [reflexivity | right; reflexivity].
  - apply (proj2 (request_none_on_404_and_204 demo.services) "nope" (demo.at_time 0)
             (mkResponse 404 (Some (JDict [("detail", JStr "Not Found")])))
             (demo.serve (demo.at_time 0)));
      [reflexivity | left; reflexivity].
Defined.




(** ** [submit_flag] *)

Section SubmitFlag.
Context {S : Services}.

Lemma utc_instant_utc (us : Z) : utc_instant (mkDatetime us (Some 0)) = us.
Proof. unfold utc_instant. simpl. apply Z.sub_0_r. Qed.

(** The handler, once the competition has been looked up: every branch with
    its outcome, the downstream state it ends in and the calls it made. *)
Lemma submit_flag_run (payload : solve.SolveSubmitDTO) (user : auth.AuthToken)
    (w : World) (comp : json) (w1 : World) (t1 : list event) :
  interpreter.get_competition (solve.competitions_id payload) w = (Ret comp, w1, t1) ->
  routers.exercises.submit_flag payload user w =
  if negb (truthy comp) then
    (Raise (HTTPException 404 (JStr "Competição não encontrada")), w1, t1)
  else
    match routers.exercises.competition_window comp with
    | Raise _ =>
        (Raise (HTTPException 500 (JStr "Erro interno ao processar datas da competição")),
         w1, t1)
    | Ret (start_date, end_date) =>
        if utcnow w1 <? utc_instant start_date then
          (Raise (HTTPException 400 (JStr "A competição ainda não começou")), w1, t1)
        else if utc_instant end_date <? utcnow w1 then
          (Raise (HTTPException 400 (JStr "A competição já terminou")), w1, t1)
        else
          let r2 := interpreter.get_competition_exercises (solve.competitions_id payload) w1 in
          match result r2 with
          | Raise x => (Raise x, final r2, (t1 ++ calls r2)%list)
          | Ret comp_exercises =>
              match any_field_eq comp_exercises "id" (solve.exercises_id payload) with
              | Raise x => (Raise x, final r2, (t1 ++ calls r2)%list)
              | Ret false =>
                  (Raise (HTTPException 400
                            (JStr "Este exercício não pertence a esta competição")),
                   final r2, (t1 ++ calls r2)%list)
              | Ret true =>
                  let r3 := interpreter.submit_flag payload (auth.id user) (final r2) in
                  (result r3, final r3, (t1 ++ calls r2 ++ calls r3)%list)
              end
          end
    end.
Proof.
  intros Hcomp. unfold routers.exercises.submit_flag.
  unfold bind at 1. rewrite Hcomp.
  destruct (negb (truthy comp)).
  { unfold raise. rewrite app_nil_r. reflexivity. }
  unfold bind, try_except, lift, now_utc, raise.
  destruct (routers.exercises.competition_window comp) as [[start_date end_date] | x].
  2: { rewrite app_nil_r. reflexivity. }
  unfold dt_lt, dt_gt. rewrite utc_instant_utc.
  destruct (utcnow w1 <? _). { rewrite app_nil_r. reflexivity. }
  destruct (_ <? utcnow w1). { rewrite app_nil_r. reflexivity. }
  cbv zeta.
  destruct (interpreter.get_competition_exercises _ w1) as [[o2 w2] t2].
  unfold result, final, calls. simpl fst. simpl snd.
  destruct o2 as [exs | x]; [| reflexivity].
  destruct (any_field_eq exs "id" _) as [[|] | x]; cbn [negb app];
    try (rewrite app_nil_r; reflexivity).
  destruct (interpreter.submit_flag payload (auth.id user) w2) as [[o3 w3] t3].
  cbn [fst snd app]. reflexivity.
Qed.

(** C1. Once the competition has been looked up: when it is not found the
    handler fails with 404; when the current UTC time is strictly before
    [start_date] it fails with 400 "A competição ainda não começou"; when it
    is strictly after [end_date] (of a window whose start is not after its
    end) it fails with 400 "A competição já terminou"; in these three cases
    nothing is posted to [/solves/submit]. And whenever the submission is
    forwarded, the competition was found and the current time lies in
    [start_date, end_date]. *)
Theorem submit_flag_time_window (payload : solve.SolveSubmitDTO) (user : auth.AuthToken)
    (w : World) (comp : json) (w1 : World) (t1 : list event) :
  interpreter.get_competition (solve.competitions_id payload) w = (Ret comp, w1, t1) ->
  let r := routers.exercises.submit_flag payload user w in
  (truthy comp = false ->
     result r = Raise (HTTPException 404 (JStr "Competição não encontrada"))
     /\ made_call "POST" "/solves/submit" (calls r) = false)
  /\
  (forall start_date end_date,
     truthy comp = true ->
     routers.exercises.competition_window comp = Ret (start_date, end_date) ->
     (utcnow w1 < utc_instant start_date ->
        result r = Raise (HTTPException 400 (JStr "A competição ainda não começou"))
        /\ made_call "POST" "/solves/submit" (calls r) = false)
     /\
     (utc_instant start_date <= utc_instant end_date ->
      utc_instant end_date < utcnow w1 ->
        result r = Raise (HTTPException 400 (JStr "A competição já terminou"))
        /\ made_call "POST" "/solves/submit" (calls r) = false))
  /\
  (made_call "POST" "/solves/submit" (calls r) = true ->
     exists start_date end_date,
       truthy comp = true
       /\ routers.exercises.competition_window comp = Ret (start_date, end_date)
       /\ utc_instant start_date <= utcnow w1 <= utc_instant end_date).
Proof.
  intros Hcomp r. subst r. rewrite (submit_flag_run _ _ _ _ _ _ Hcomp).
  apply request_calls_inv in Hcomp. subst t1.
  split; [| split].
  - intros Hf. rewrite Hf. split; reflexivity.
  - intros start_date end_date Ht Hw. rewrite Ht, Hw. cbn [negb]. split.
    + intros Hlt. apply Z.ltb_lt in Hlt. rewrite Hlt. split; reflexivity.
    + intros Hwin Hgt.
      replace (utcnow w1 <? utc_instant start_date) with false
        by (symmetry; apply Z.ltb_ge; lia).
      apply Z.ltb_lt in Hgt. rewrite Hgt. split; reflexivity.
  - destruct (truthy comp); cbn [negb]; [| discriminate].
    destruct (routers.exercises.competition_window comp) as [[start_date end_date] | x];
      [| discriminate].
    destruct (Z.ltb_spec (utcnow w1) (utc_instant start_date)); [discriminate |].
    destruct (Z.ltb_spec (utc_instant end_date) (utcnow w1)); [discriminate |].
    intros _. exists start_date, end_date. repeat split; assumption.
Qed.

(** C5. For a submission whose competition exists and whose time lies in the
    window, with the interpreter listing the competition's exercises (each
    with its ["id"]): the submission is posted to [/solves/submit] if and
    only if some listed exercise has the submitted [exercises_id]; then the
    handler answers what the interpreter answers to that post, and otherwise
    it fails with 400 and posts nothing. *)
Theorem submit_flag_membership (payload : solve.SolveSubmitDTO) (user : auth.AuthToken)
    (w : World) (comp : json) (w1 : World) (t1 : list event)
    (start_date end_date : datetime) (items : list json) (w2 : World) (t2 : list event) :
  interpreter.get_competition (solve.competitions_id payload) w = (Ret comp, w1, t1) ->
  truthy comp = true ->
  routers.exercises.competition_window comp = Ret (start_date, end_date) ->
  utc_instant start_date <= utcnow w1 <= utc_instant end_date ->
  interpreter.get_competition_exercises (solve.competitions_id payload) w1
  = (Ret (JList items), w2, t2) ->
  Forall (has_field "id") items ->
  let r := routers.exercises.submit_flag payload user w in
  let member := exists ex, In ex items /\ field_is "id" (solve.exercises_id payload) ex in
  (made_call "POST" "/solves/submit" (calls r) = true <-> member)
  /\
  (member ->
     result r = result (interpreter.submit_flag payload (auth.id user) w2)
     /\ calls r = (t1 ++ t2 ++ [Http (mkRequest "POST" "/solves/submit"
                                        (Some (solve.dumped payload))
                                        [("users_id", auth.id user)])])%list)
  /\
  (~ member ->
     result r = Raise (HTTPException 400
                         (JStr "Este exercício não pertence a esta competição"))
     /\ made_call "POST" "/solves/submit" (calls r) = false).
Proof.
  intros Hcomp Ht Hw [Hlo Hhi] Hexs Hall r member. subst r.
  rewrite (submit_flag_run _ _ _ _ _ _ Hcomp), Ht, Hw. cbn [negb].
  replace (utcnow w1 <? utc_instant start_date) with false
    by (symmetry; apply Z.ltb_ge; lia).
  replace (utc_instant end_date <? utcnow w1) with false
    by (symmetry; apply Z.ltb_ge; lia).
  cbv zeta. rewrite Hexs. cbn [result final calls fst snd].
  apply request_calls_inv in Hcomp. apply request_calls_inv in Hexs. subst t1 t2.
  destruct (any_field_eq_decides "id" (solve.exercises_id payload) items Hall)
    as [[Hany Hmem] | [Hany Hmem]]; rewrite Hany.
  - unfold interpreter.submit_flag at 1 2 3. rewrite request_run.
    cbn [fst snd]. split; [| split].
    + split; [intros _; exact Hmem | intros _; reflexivity].
    + intros _. unfold interpreter.submit_flag. rewrite request_run.
      split; reflexivity.
    + intros Hno. contradiction.
  - split; [| split].
    + split; [intros H; discriminate H | intros H; contradiction].
    + intros H. contradiction.
    + intros _. split; reflexivity.
Qed.
End SubmitFlag.

Lemma submit_flag_time_window_witness :
  result (routers.exercises.submit_flag (S := demo.services)
            demo.stray_flag demo.ana (demo.at_time demo.during))
  = Raise (HTTPException 404 (JStr "Competição não encontrada"))
  /\ result (routers.exercises.submit_flag (S := demo.services)
               (demo.flag_for "e1") demo.ana (demo.at_time demo.before_start))
     = Raise (HTTPException 400 (JStr "A competição ainda não começou"))
  /\ result (routers.exercises.submit_flag (S := demo.services)
               (demo.flag_for "e1") demo.ana (demo.at_time demo.after_end))
     = Raise (HTTPException 400 (JStr "A competição já terminou"))
  /\ made_call "POST" "/solves/submit"
       (calls (routers.exercises.submit_flag (S := demo.services)
                 (demo.flag_for "e1") demo.ana (demo.at_time demo.after_end)))
     = false.
Proof.
  split; [| split; [| split]].
  - refine (proj1 (proj1 (submit_flag_time_window (S := demo.services)
              demo.stray_flag demo.ana (demo.at_time demo.during)
              JNull (demo.serve (demo.at_time demo.during)) _ eq_refl) _)).
    reflexivity.
  - refine (proj1 (proj1 (proj1 (proj2 (submit_flag_time_window (S := demo.services)
              (demo.flag_for "e1") demo.ana (demo.at_time demo.before_start)
              demo.spring_ctf (demo.serve (demo.at_time demo.before_start)) _ eq_refl))
              _ _ _ _) _)).
    + reflexivity.
    + vm_compute. reflexivity.
    + vm_compute. reflexivity.
  - refine (proj1 (proj2 (proj1 (proj2 (submit_flag_time_window (S := demo.services)
              (demo.flag_for "e1") demo.ana (demo.at_time demo.after_end)
              demo.spring_ctf (demo.serve (demo.at_time demo.after_end)) _ eq_refl))
              _ _ _ _) _ _)).
    + reflexivity.
    + vm_compute. reflexivity.
    + vm_compute. discriminate.
    + vm_compute. reflexivity.
  - refine (proj2 (proj2 (proj1 (proj2 (submit_flag_time_window (S := demo.services)
              (demo.flag_for "e1") demo.ana (demo.at_time demo.after_end)
              demo.spring_ctf (demo.serve (demo.at_time demo.after_end)) _ eq_refl))
              _ _ _ _) _ _)).
    + reflexivity.
    + vm_compute. reflexivity.
    + vm_compute. discriminate.
    + vm_compute. reflexivity.
Defined.

Lemma submit_flag_membership_witness :
  made_call "POST" "/solves/submit"
    (calls (routers.exercises.submit_flag (S := demo.services)
              (demo.flag_for "e1") demo.ana (demo.at_time demo.during))) = true
  /\ result (routers.exercises.submit_flag (S := demo.services)
               (demo.flag_for "e2") demo.ana (demo.at_time demo.during))
     = Raise (HTTPException 400 (JStr "Este exercício não pertence a esta competição")).
Proof.
  split.
  - refine (proj2 (proj1 (submit_flag_membership (S := demo.services)
              (demo.flag_for "e1") demo.ana (demo.at_time demo.during)
              demo.spring_ctf (demo.serve (demo.at_time demo.during)) _ _ _
              [demo.pwn101] (demo.serve (demo.serve (demo.at_time demo.during))) _
              eq_refl eq_refl _ _ eq_refl _)) _).
    + vm_compute. reflexivity.
    + vm_compute. split; discriminate.
    + repeat constructor. exists (JStr "e1"). reflexivity.
    + exists demo.pwn101. split; [left; reflexivity | reflexivity].
  - refine (proj1 (proj2 (proj2 (submit_flag_membership (S := demo.services)
              (demo.flag_for "e2") demo.ana (demo.at_time demo.during)
              demo.spring_ctf (demo.serve (demo.at_time demo.during)) _ _ _
              [demo.pwn101] (demo.serve (demo.serve (demo.at_time demo.during))) _
              eq_refl eq_refl _ _ eq_refl _)) _)).
    + vm_compute. reflexivity.
    + vm_compute. split; discriminate.
    + repeat constructor. exists (JStr "e1"). reflexivity.
    + intros [ex [[<- | []] Hid]]. discriminate Hid.
Defined.

(** ** [record_attendance] *)

Section RecordAttendance.
Context {S : Services}.

(** The handler, branch by branch. *)
Lemma record_attendance_run (payload : attendance.AttendanceCreateDTO)
    (user : auth.AuthToken) (w : World) :
  let target := routers.attendance.target_user_id payload user in
  let r1 := interpreter.get_user_attendance target w in
  routers.attendance.record_attendance payload user w =
  match result r1 with
  | Raise x => (routers.attendance.reraised (Raise x), final r1, calls r1)
  | Ret user_history =>
      match any_field_eq user_history "competitions_id"
              (attendance.competitions_id payload) with
      | Raise x => (routers.attendance.reraised (Raise x), final r1, calls r1)
      | Ret true =>
          (Raise (HTTPException 400
                    (JStr "Presença já registrada para este usuário nesta competição.")),
           final r1, calls r1)
      | Ret false =>
          let r2 := interpreter.record_attendance payload target (final r1) in
          (routers.attendance.reraised (result r2), final r2, (calls r1 ++ calls r2)%list)
      end
  end.
Proof.
  intros target r1. subst r1.
  unfold routers.attendance.record_attendance. fold target.
  unfold try_except, bind, lift, raise, result, final, calls.
  destruct (interpreter.get_user_attendance target w) as [[o1 w1] t1].
  cbn [fst snd].
  destruct o1 as [history | x].
  2: { destruct x; cbn [routers.attendance.reraised]; rewrite app_nil_r; reflexivity. }
  destruct (any_field_eq history "competitions_id" _) as [[|] | x]; cbn [app].
  - rewrite !app_nil_r. reflexivity.
  - destruct (interpreter.record_attendance payload target w1) as [[o2 w2] t2].
    cbn [fst snd app].
    destruct o2 as [v | x]; [reflexivity |].
    destruct x; cbn [routers.attendance.reraised]; rewrite app_nil_r; reflexivity.
  - destruct x; cbn [routers.attendance.reraised]; rewrite !app_nil_r; reflexivity.
Qed.

(** C6. With the history of the target user at hand (each entry with its
    ["competitions_id"]): when an entry already names the competition of the
    payload, the handler fails with 400 and posts nothing to [/attendance/];
    otherwise it posts the attendance for the target user, once, and returns
    what the interpreter returns. *)
Theorem record_attendance_duplicate_check (payload : attendance.AttendanceCreateDTO)
    (user : auth.AuthToken) (w : World) (items : list json) (w1 : World)
    (t1 : list event) :
  let target := routers.attendance.target_user_id payload user in
  interpreter.get_user_attendance target w = (Ret (JList items), w1, t1) ->
  Forall (has_field "competitions_id") items ->
  let r := routers.attendance.record_attendance payload user w in
  let recorded :=
    exists att, In att items
                /\ field_is "competitions_id" (attendance.competitions_id payload) att in
  (recorded ->
     result r = Raise (HTTPException 400
                  (JStr "Presença já registrada para este usuário nesta competição."))
     /\ made_call "POST" "/attendance/" (calls r) = false)
  /\
  (~ recorded ->
     calls r = (t1 ++ [Http (mkRequest "POST" "/attendance/"
                              (Some (attendance.dump_AttendanceCreateDTO payload))
                              [("users_id", target)])])%list
     /\ forall v,
          result (interpreter.record_attendance payload target w1) = Ret v ->
          result r = Ret v).
Proof.
  intros target Hhist Hall r recorded. subst r.
  rewrite record_attendance_run. fold target. cbv zeta. rewrite Hhist.
  cbn [result final calls fst snd].
  apply request_calls_inv in Hhist. subst t1.
  destruct (any_field_eq_decides "competitions_id"
              (attendance.competitions_id payload) items Hall)
    as [[Hany Hrec] | [Hany Hrec]]; rewrite Hany.
  - split; [| intros H; contradiction].
    intros _. split; reflexivity.
  - split; [intros H; contradiction |].
    intros _. split.
    + unfold interpreter.record_attendance. rewrite request_run. reflexivity.
    + intros v Hv. rewrite Hv. reflexivity.
Qed.

(** C9, amended. The target of the attendance is [payload.users_id] exactly
    when the caller is an admin and that field is a non-empty string, and
    the caller's own id otherwise. For a caller who is not an admin the
    history read by the duplicate check is the caller's, and the attendance
    is posted with the query parameter [users_id] set to the caller's id.
    The field is not dropped, though: the body of that post is the dump of
    the payload, which holds the [users_id] the caller wrote. *)
Theorem record_attendance_target (payload : attendance.AttendanceCreateDTO)
    (user : auth.AuthToken) (w : World) :
  (forall u, auth.role user = "admin" -> attendance.users_id payload = Some u ->
             u <> "" ->
             routers.attendance.target_user_id payload user = u)
  /\
  (auth.role user = "admin" ->
   attendance.users_id payload = None \/ attendance.users_id payload = Some "" ->
   routers.attendance.target_user_id payload user = auth.id user)
  /\
  (auth.role user <> "admin" ->
   routers.attendance.target_user_id payload user = auth.id user
   /\ forall ev, In ev (calls (routers.attendance.record_attendance payload user w)) ->
        ev = Http (mkRequest "GET" ("/attendance/user/" ++ auth.id user) None [])
        \/ ev = Http (mkRequest "POST" "/attendance/"
                       (Some (attendance.dump_AttendanceCreateDTO payload))
                       [("users_id", auth.id user)]))
  /\
  (forall u, attendance.users_id payload = Some u ->
             attendance.users_id_set payload = true ->
             attendance.dump_AttendanceCreateDTO payload
             = JDict [("competitions_id", JStr (attendance.competitions_id payload));
                      ("users_id", JStr u)]).
Proof.
  split; [| split; [| split]].
  4: { intros u Hu Hset. unfold attendance.dump_AttendanceCreateDTO.
       rewrite Hu, Hset. reflexivity. }
  - intros u Hrole Hu Hne. unfold routers.attendance.target_user_id.
    rewrite Hu, Hrole. apply String.eqb_neq in Hne. rewrite Hne. reflexivity.
  - intros Hrole [Hu | Hu]; unfold routers.attendance.target_user_id; rewrite Hu;
      [reflexivity |].
    rewrite andb_false_r. reflexivity.
  - intros Hrole.
    assert (Htarget : routers.attendance.target_user_id payload user = auth.id user).
    { unfold routers.attendance.target_user_id.
      apply String.eqb_neq in Hrole. rewrite Hrole.
      destruct (attendance.users_id payload); reflexivity. }
    split; [exact Htarget |].
    intros ev. rewrite record_attendance_run. cbv zeta. rewrite Htarget.
    unfold interpreter.get_user_attendance, interpreter.record_attendance.
    rewrite !request_run. cbn [result final calls fst snd].
    destruct (interpreter.classify _) as [history | x]; cbn [calls snd].
    + destruct (any_field_eq history _ _) as [[|] | x]; cbn [calls snd app In];
        intros H; repeat (destruct H as [<- | H]); try contradiction;
        (left; reflexivity) || (right; reflexivity).
    + cbn [In]. intros [<- | []]. left. reflexivity.
Qed.
End RecordAttendance.

Lemma record_attendance_duplicate_check_witness :
  result (routers.attendance.record_attendance (S := demo.services)
            (attendance.mkAttendanceCreateDTO "c1" None false) demo.ana
            (demo.at_time demo.during))
  = Raise (HTTPException 400
             (JStr "Presença já registrada para este usuário nesta competição."))
  /\ result (routers.attendance.record_attendance (S := demo.services)
               (attendance.mkAttendanceCreateDTO "c1" None false) demo.bob
               (demo.at_time demo.during))
     = Ret (JDict [("id", JStr "a2")]).
Proof.
  split.
  - refine (proj1 (proj1 (record_attendance_duplicate_check (S := demo.services)
              (attendance.mkAttendanceCreateDTO "c1" None false) demo.ana
              (demo.at_time demo.during) _ _ _ eq_refl _) _)).
    + repeat constructor. exists (JStr "c1"). reflexivity.
    + eexists. split; [left; reflexivity | reflexivity].
  - refine (proj2 (proj2 (record_attendance_duplicate_check (S := demo.services)
              (attendance.mkAttendanceCreateDTO "c1" None false) demo.bob
              (demo.at_time demo.during) [] _ _ eq_refl _) _) _ eq_refl).
    + constructor.
    + intros [att [[] _]].
Defined.

Lemma record_attendance_target_witness :
  routers.attendance.target_user_id
    (attendance.mkAttendanceCreateDTO "c1" (Some "u1") true) demo.bob = "u2"
  /\ routers.attendance.target_user_id
       (attendance.mkAttendanceCreateDTO "c1" (Some "u1") true) demo.root = "u1"
  /\ attendance.dump_AttendanceCreateDTO
       (attendance.mkAttendanceCreateDTO "c1" (Some "u1") true)
     = JDict [("competitions_id", JStr "c1"); ("users_id", JStr "u1")].
Proof.
  split; [| split].
  - refine (proj1 (proj1 (proj2 (proj2 (record_attendance_target (S := demo.services)
              (attendance.mkAttendanceCreateDTO "c1" (Some "u1") true) demo.bob
              (demo.at_time demo.during)))) _)).
    simpl. discriminate.
  - refine (proj1 (record_attendance_target (S := demo.services)
              (attendance.mkAttendanceCreateDTO "c1" (Some "u1") true) demo.root
              (demo.at_time demo.during)) "u1" eq_refl eq_refl _).
    discriminate.
  - exact (proj2 (proj2 (proj2 (record_attendance_target (S := demo.services)
              (attendance.mkAttendanceCreateDTO "c1" (Some "u1") true) demo.bob
              (demo.at_time demo.during)))) "u1" eq_refl eq_refl).
Defined.

(** C9, as stated, fails. Were [payload.users_id] ignored for a caller who
    is not an admin, two payloads for the same competition would cause the
    same downstream calls. They do not: when the student u2 records an
    attendance for c1 and writes [users_id] u1 in the payload, the post to
    the interpreter carries the body [{competitions_id: c1, users_id: u1}],
    and without the field it carries [{competitions_id: c1}]. *)
Lemma record_attendance_users_id_not_ignored :
  ~ (forall (S : Services) (payload payload' : attendance.AttendanceCreateDTO)
            (user : auth.AuthToken) (w : World),
        auth.role user <> "admin" ->
        attendance.competitions_id payload = attendance.competitions_id payload' ->
        calls (routers.attendance.record_attendance payload user w)
        = calls (routers.attendance.record_attendance payload' user w)).
Proof.
  intros H.
  specialize (H demo.services
                (attendance.mkAttendanceCreateDTO "c1" (Some "u1") true)
                (attendance.mkAttendanceCreateDTO "c1" None false)
                demo.bob (demo.at_time demo.during)).
  assert (Hrole : auth.role demo.bob <> "admin") by (simpl; discriminate).
  specialize (H Hrole eq_refl). vm_compute in H. discriminate H.
Qed.

(** ** [get_competition_scoreboard] *)

Section Scoreboard.
Context {S : Services}.

(** An admin goes straight to the scoreboard. *)
Lemma scoreboard_admin (comp_id : string) (user : auth.AuthToken) (w : World) :
  auth.role user = "admin" ->
  routers.scoreboard.get_competition_scoreboard comp_id user w
  = interpreter.get_scoreboard comp_id w.
Proof.
  intros Hrole. unfold routers.scoreboard.get_competition_scoreboard.
  rewrite Hrole. cbn [String.eqb Ascii.eqb Bool.eqb negb].
  unfold bind, ret.
  destruct (interpreter.get_scoreboard comp_id w) as [[o w1] t1]. reflexivity.
Qed.

(** Anyone else goes through the list of participants. *)
Lemma scoreboard_other_run (comp_id : string) (user : auth.AuthToken) (w : World) :
  auth.role user <> "admin" ->
  let r1 := interpreter.get_competition_participants comp_id w in
  routers.scoreboard.get_competition_scoreboard comp_id user w =
  match result r1 with
  | Raise x => (Raise x, final r1, calls r1)
  | Ret participants =>
      match any_field_eq participants "id" (auth.id user) with
      | Raise x => (Raise x, final r1, calls r1)
      | Ret false =>
          (Raise (HTTPException 403
                    (JStr "Você precisa estar inscrito nesta competição para ver o placar.")),
           final r1, calls r1)
      | Ret true =>
          let r2 := interpreter.get_scoreboard comp_id (final r1) in
          (result r2, final r2, (calls r1 ++ calls r2)%list)
      end
  end.
Proof.
  intros Hrole r1. subst r1.
  unfold routers.scoreboard.get_competition_scoreboard.
  apply String.eqb_neq in Hrole. rewrite Hrole. cbn [negb].
  unfold bind, lift, raise, ret, result, final, calls.
  destruct (interpreter.get_competition_participants comp_id w) as [[o1 w1] t1].
  cbn [fst snd].
  destruct o1 as [participants | x]; [| reflexivity].
  destruct (any_field_eq participants "id" _) as [[|] | x]; cbn [negb app];
    try (rewrite !app_nil_r; reflexivity).
  destruct (interpreter.get_scoreboard comp_id w1) as [[o2 w2] t2].
  cbn [fst snd]. rewrite app_nil_r. reflexivity.
Qed.

(** C7. For an admin the handler is the scoreboard request alone: the
    participants are not asked for. For any other caller, with the
    participants at hand (each with its ["id"]): the scoreboard is asked
    for, and its answer returned, if and only if some participant has the
    caller's id; otherwise the handler fails with 403 and the scoreboard is
    not asked for. *)
Theorem scoreboard_access_control (comp_id : string) (user : auth.AuthToken) (w : World) :
  (auth.role user = "admin" ->
     routers.scoreboard.get_competition_scoreboard comp_id user w
     = interpreter.get_scoreboard comp_id w
     /\ calls (routers.scoreboard.get_competition_scoreboard comp_id user w)
        = [Http (mkRequest "GET" ("/scoreboard/" ++ comp_id) None [])])
  /\
  (auth.role user <> "admin" ->
   forall items w1 t1,
     interpreter.get_competition_participants comp_id w = (Ret (JList items), w1, t1) ->
     Forall (has_field "id") items ->
     let r := routers.scoreboard.get_competition_scoreboard comp_id user w in
     let registered := exists p, In p items /\ field_is "id" (auth.id user) p in
     (made_call "GET" ("/scoreboard/" ++ comp_id) (calls r) = true <-> registered)
     /\
     (registered ->
        result r = result (interpreter.get_scoreboard comp_id w1)
        /\ calls r = (t1 ++ [Http (mkRequest "GET" ("/scoreboard/" ++ comp_id) None [])])%list)
     /\
     (~ registered ->
        result r = Raise (HTTPException 403
                     (JStr "Você precisa estar inscrito nesta competição para ver o placar."))
        /\ made_call "GET" ("/scoreboard/" ++ comp_id) (calls r) = false)).
Proof.
  split.
  - intros Hrole. rewrite (scoreboard_admin _ _ _ Hrole).
    split; [reflexivity |]. unfold interpreter.get_scoreboard. apply request_calls.
  - intros Hrole items w1 t1 Hpart Hall r registered. subst r.
    rewrite (scoreboard_other_run _ _ _ Hrole). cbv zeta. rewrite Hpart.
    cbn [result final calls fst snd].
    apply request_calls_inv in Hpart. subst t1.
    unfold interpreter.get_scoreboard. rewrite request_run.
    destruct (any_field_eq_decides "id" (auth.id user) items Hall)
      as [[Hany Hreg] | [Hany Hreg]]; rewrite Hany;
      cbn [result final calls fst snd app].
    + split; [| split].
      * split; [intros _; exact Hreg |]. intros _.
        unfold made_call. cbn [existsb method endpoint].
        rewrite !String.eqb_refl. cbn [andb orb]. apply orb_true_r.
      * intros _. split; reflexivity.
      * intros H. contradiction.
    + split; [| split].
      * split; [intros H; discriminate H | intros H; contradiction].
      * intros H. contradiction.
      * intros _. split; reflexivity.
Qed.
End Scoreboard.

Lemma scoreboard_access_control_witness :
  result (routers.scoreboard.get_competition_scoreboard (S := demo.services)
            "c1" demo.root (demo.at_time demo.during))
  = Ret (JList [JDict [("username", JStr "ana"); ("score", JNum 300)]])
  /\ result (routers.scoreboard.get_competition_scoreboard (S := demo.services)
               "c1" demo.ana (demo.at_time demo.during))
     = Ret (JList [JDict [("username", JStr "ana"); ("score", JNum 300)]])
  /\ result (routers.scoreboard.get_competition_scoreboard (S := demo.services)
               "c1" demo.bob (demo.at_time demo.during))
     = Raise (HTTPException 403
                (JStr "Você precisa estar inscrito nesta competição para ver o placar.")).
Proof.
  split; [| split].
  - rewrite (proj1 (proj1 (scoreboard_access_control (S := demo.services)
               "c1" demo.root (demo.at_time demo.during)) eq_refl)).
    reflexivity.
  - refine (proj1 (proj1 (proj2 (proj2 (scoreboard_access_control (S := demo.services)
              "c1" demo.ana (demo.at_time demo.during)) _
              [JDict [("id", JStr "u1")]] _ _ eq_refl _)) _)).
    + simpl. discriminate.
    + repeat constructor. exists (JStr "u1"). reflexivity.
    + eexists. split; [left; reflexivity | reflexivity].
  - refine (proj1 (proj2 (proj2 (proj2 (scoreboard_access_control (S := demo.services)
              "c1" demo.bob (demo.at_time demo.during)) _
              [JDict [("id", JStr "u1")]] _ _ eq_refl _)) _)).
    + simpl. discriminate.
    + repeat constructor. exists (JStr "u1"). reflexivity.
    + intros [p [[<- | []] Hid]]. discriminate Hid.
Defined.

(** ** [get_connection_info] *)

Section ConnectionInfo.
Context {S : Services}.

(** C8. The answer of [get_connection_info], the state it leaves and the
    calls it makes are the same whatever [comp_id] is, and whoever the
    authenticated user is; and whenever the interpreter knows an active
    container of the exercise, the handler asks for nothing else and returns
    the container's connection and port. *)
Theorem connection_info_ignores_comp_id (ex_id comp_id : string)
    (user : auth.AuthToken) (w : World) :
  (forall comp_id' user',
     routers.exercises.get_connection_info ex_id comp_id' user' w
     = routers.exercises.get_connection_info ex_id comp_id user w)
  /\
  (forall fields active connection port w1 t1,
     interpreter.get_container_by_exercise ex_id w = (Ret (JDict fields), w1, t1) ->
     lookup "is_active" fields = Some active ->
     truthy active = true ->
     lookup "connection" fields = Some connection ->
     lookup "port" fields = Some port ->
     routers.exercises.get_connection_info ex_id comp_id user w
     = (Ret (JDict [("connection", connection); ("port", port)]), w1,
        [Http (mkRequest "GET" ("/containers/exercise/" ++ ex_id) None [])])).
Proof.
  split; [reflexivity |].
  intros fields active connection port w1 t1 Hc Hactive Htrue Hconn Hport.
  unfold routers.exercises.get_connection_info.
  unfold bind at 1. rewrite Hc.
  apply request_calls_inv in Hc. subst t1.
  unfold bind, lift, ret, routers.exercises.container_inactive, get, get_default,
    subscript.
  rewrite Hactive, Hconn, Hport.
  destruct fields as [| kv rest]; [discriminate Hactive |].
  cbn [truthy negb and_then]. rewrite Htrue. reflexivity.
Qed.
End ConnectionInfo.

Lemma connection_info_ignores_comp_id_witness :
  result (routers.exercises.get_connection_info (S := demo.services)
            "e1" "c1" demo.bob (demo.at_time demo.during))
  = Ret (JDict [("connection", JStr "10.0.0.7"); ("port", JNum 31337)])
  /\ routers.exercises.get_connection_info (S := demo.services)
       "e1" "no-such-competition" demo.ana (demo.at_time demo.during)
     = routers.exercises.get_connection_info (S := demo.services)
         "e1" "c1" demo.bob (demo.at_time demo.during).
Proof.
  split.
  - rewrite (proj2 (connection_info_ignores_comp_id (S := demo.services)
               "e1" "c1" demo.bob (demo.at_time demo.during))
               _ (JBool true) (JStr "10.0.0.7") (JNum 31337) _ _
               eq_refl eq_refl eq_refl eq_refl eq_refl).
    reflexivity.
  - exact (proj1 (connection_info_ignores_comp_id (S := demo.services)
               "e1" "c1" demo.bob (demo.at_time demo.during))
               "no-such-competition" demo.ana).
Defined.

(** ** [list_all_exercises] and [create_exercise] *)

Section ExerciseLibrary.
Context {S : Services}.

(** [create_exercise] turns away every caller who is not an admin, before
    any downstream call. *)
Lemma create_exercise_admin_only (payload : exercise.ExerciseCreateDTO)
    (user : auth.AuthToken) (w : World) :
  auth.role user <> "admin" ->
  routers.exercises.create_exercise payload user w
  = (Raise (HTTPException 403 (JStr "Acesso negado")), w, []).
Proof.
  intros Hrole. unfold routers.exercises.create_exercise.
  apply String.eqb_neq in Hrole. rewrite Hrole. reflexivity.
Qed.

(** [list_all_exercises] does not look at the caller: whatever the role, it
    asks the interpreter for the library and returns the answer. *)
Lemma list_all_exercises_any_role (user : auth.AuthToken) (w : World) :
  routers.exercises.list_all_exercises user w = interpreter.list_all_exercises w
  /\ calls (routers.exercises.list_all_exercises user w)
     = [Http (mkRequest "GET" "/exercises/" None [])].
Proof.
  split; [reflexivity |].
  unfold routers.exercises.list_all_exercises, interpreter.list_all_exercises.
  apply request_calls.
Qed.
End ExerciseLibrary.

(** C3, on the code: a student who lists the global library of exercises is
    not turned away with 403; the interpreter is asked for the library and
    the student receives it. *)
Theorem list_all_exercises_serves_student :
  auth.role demo.ana = "student"
  /\ result (routers.exercises.list_all_exercises (S := demo.services)
               demo.ana (demo.at_time demo.during))
     = Ret (JList [demo.pwn101; demo.quiz])
  /\ made_call "GET" "/exercises/"
       (calls (routers.exercises.list_all_exercises (S := demo.services)
                 demo.ana (demo.at_time demo.during))) = true.
Proof. repeat split. Qed.

(** ** [deploy_exercise_infrastructure] *)

Section Deploy.
Context {S : Services}.

(** The handler for an admin, once the exercise has been fetched. *)
Lemma deploy_run (ex_id : string) (payload : container.ContainerRequestDTO)
    (user : auth.AuthToken) (w : World) (exercise : json) (w1 : World)
    (t1 : list event) :
  auth.role user = "admin" ->
  interpreter.get_exercise ex_id w = (Ret exercise, w1, t1) ->
  routers.exercises.deploy_exercise_infrastructure ex_id payload user w =
  match routers.exercises.no_docker_image exercise with
  | Raise x => (Raise x, w1, t1)
  | Ret true =>
      (Raise (HTTPException 400 (JStr "Exercício sem imagem Docker configurada")), w1, t1)
  | Ret false =>
      match routers.exercises.orchester_payload exercise payload with
      | Raise x => (Raise x, w1, t1)
      | Ret request =>
          match orchester_start_container request w1 with
          | (Raise x, w2) => (Raise x, w2, (t1 ++ [StartContainer request])%list)
          | (Ret orchestrator_resp, w2) =>
              match routers.exercises.container_data exercise orchestrator_resp with
              | Raise x => (Raise x, w2, (t1 ++ [StartContainer request])%list)
              | Ret data =>
                  let r3 := interpreter.register_container data ex_id w2 in
                  (result r3, final r3,
                   (t1 ++ StartContainer request :: calls r3)%list)
              end
          end
      end
  end.
Proof.
  intros Hrole Hex. unfold routers.exercises.deploy_exercise_infrastructure.
  rewrite Hrole. cbn [String.eqb Ascii.eqb Bool.eqb negb].
  unfold bind at 1. rewrite Hex.
  unfold bind, lift, raise, start_container.
  destruct (routers.exercises.no_docker_image exercise) as [[|] | x];
    cbn [app]; try (rewrite !app_nil_r; reflexivity).
  destruct (routers.exercises.orchester_payload exercise payload) as [request | x];
    cbn [app]; try (rewrite !app_nil_r; reflexivity).
  destruct (orchester_start_container request w1) as [[resp | x] w2];
    cbn [app]; [| try rewrite !app_nil_r; reflexivity].
  destruct (routers.exercises.container_data exercise resp) as [data | x];
    cbn [app]; [| try rewrite !app_nil_r; reflexivity].
  destruct (interpreter.register_container data ex_id w2) as [[o3 w3] t3].
  cbn [result final calls fst snd app]. reflexivity.
Qed.

Lemma no_docker_image_of_image (exercise image : json) :
  subscript exercise "docker_image" = Ret image ->
  routers.exercises.no_docker_image exercise = Ret (negb (truthy image)).
Proof.
  unfold routers.exercises.no_docker_image, get, get_default, subscript.
  destruct exercise as [| | | | | fields]; try discriminate.
  destruct (lookup "docker_image" fields) as [v |] eqn:Hl; [| discriminate].
  intros H. injection H as ->.
  destruct fields; [discriminate Hl | reflexivity].
Qed.

Lemma no_docker_image_of_missing (exercise : json) :
  exercise = JNull
  \/ (exists fields, exercise = JDict fields
        /\ forall image, lookup "docker_image" fields = Some image -> truthy image = false) ->
  routers.exercises.no_docker_image exercise = Ret true.
Proof.
  intros [-> | [fields [-> Himg]]]; [reflexivity |].
  unfold routers.exercises.no_docker_image, get, get_default.
  destruct fields as [| kv rest]; [reflexivity |]. cbn [truthy negb and_then].
  destruct (lookup "docker_image" (kv :: rest)) as [v |]; cbn [and_then]; [| reflexivity].
  rewrite (Himg v eq_refl). reflexivity.
Qed.

(** Anyone but an admin is turned away before any downstream call. *)
Lemma deploy_admin_only (ex_id : string) (payload : container.ContainerRequestDTO)
    (user : auth.AuthToken) (w : World) :
  auth.role user <> "admin" ->
  routers.exercises.deploy_exercise_infrastructure ex_id payload user w
  = (Raise (HTTPException 403 (JStr "Acesso negado")), w, []).
Proof.
  intros Hrole. unfold routers.exercises.deploy_exercise_infrastructure.
  apply String.eqb_neq in Hrole. rewrite Hrole. reflexivity.
Qed.

(** C2. For an admin, once the exercise has been fetched: when the exercise
    is missing or has no docker image, the handler fails with 400 and
    neither the orchestrator nor [register_container] is called. When it has
    an image (and a name), the orchestrator is called first, with that
    image; if that call raises, the handler raises the same and nothing is
    registered; if it returns, the container is registered next, with
    [container_id], [host_port] and [service_url] of the orchestrator's
    answer and the image of the exercise. And a container is registered
    only right after a call of the orchestrator that returned. *)
Theorem deploy_provision_then_register (ex_id : string)
    (payload : container.ContainerRequestDTO) (user : auth.AuthToken) (w : World)
    (exercise : json) (w1 : World) (t1 : list event) :
  auth.role user = "admin" ->
  interpreter.get_exercise ex_id w = (Ret exercise, w1, t1) ->
  let r := routers.exercises.deploy_exercise_infrastructure ex_id payload user w in
  let registration (data : json) :=
    Http (mkRequest "POST" "/containers/" (Some data) [("exercises_id", ex_id)]) in
  (exercise = JNull
   \/ (exists fields, exercise = JDict fields
         /\ forall image, lookup "docker_image" fields = Some image -> truthy image = false) ->
     result r = Raise (HTTPException 400 (JStr "Exercício sem imagem Docker configurada"))
     /\ started_container (calls r) = false
     /\ made_call "POST" "/containers/" (calls r) = false)
  /\
  (forall image name,
     subscript exercise "docker_image" = Ret image ->
     truthy image = true ->
     subscript exercise "name" = Ret name ->
     let request :=
       JDict [("image_link", image);
              ("time_alive", container.time_alive payload);
              ("exercise_name", name);
              ("callback_url", JStr "http://backend:8000/containers/callback")] in
     (forall x w2,
        orchester_start_container request w1 = (Raise x, w2) ->
        result r = Raise x /\ calls r = (t1 ++ [StartContainer request])%list)
     /\
     (forall resp w2 docker_id port connection data,
        orchester_start_container request w1 = (Ret resp, w2) ->
        subscript resp "container_id" = Ret docker_id ->
        subscript resp "host_port" = Ret port ->
        subscript resp "service_url" = Ret connection ->
        ContainerInternalDTO docker_id image port connection = Ret data ->
        result r = result (interpreter.register_container data ex_id w2)
        /\ calls r = (t1 ++ [StartContainer request; registration data])%list))
  /\
  (made_call "POST" "/containers/" (calls r) = true ->
     exists request resp w2 data,
       orchester_start_container request w1 = (Ret resp, w2)
       /\ calls r = (t1 ++ [StartContainer request; registration data])%list).
Proof.
  intros Hrole Hex r registration. subst r.
  rewrite (deploy_run _ _ _ _ _ _ _ Hrole Hex).
  apply request_calls_inv in Hex. subst t1.
  split; [| split].
  - intros Hmissing. rewrite (no_docker_image_of_missing _ Hmissing).
    repeat split.
  - intros image name Himage Htrue Hname request.
    rewrite (no_docker_image_of_image _ _ Himage), Htrue. cbn [negb].
    unfold routers.exercises.orchester_payload. rewrite Himage, Hname.
    cbn [and_then]. fold request. split.
    + intros x w2 Horch. rewrite Horch. split; reflexivity.
    + intros resp w2 docker_id port connection data Horch Hid Hport Hurl Hdto.
      rewrite Horch. unfold routers.exercises.container_data.
      rewrite Hid, Himage, Hport, Hurl. cbn [and_then]. rewrite Hdto.
      unfold interpreter.register_container. rewrite request_run.
      split; reflexivity.
  - destruct (routers.exercises.no_docker_image exercise) as [[|] | x];
      try (intros H; discriminate H).
    destruct (routers.exercises.orchester_payload exercise payload) as [request | x];
      [| intros H; discriminate H].
    destruct (orchester_start_container request w1) as [[resp | x] w2] eqn:Horch;
      [| intros H; discriminate H].
    destruct (routers.exercises.container_data exercise resp) as [data | x];
      [| intros H; discriminate H].
    intros _. exists request, resp, w2, data. split; [exact Horch |].
    unfold interpreter.register_container. rewrite request_run. reflexivity.
Qed.
End Deploy.

Lemma deploy_provision_then_register_witness :
  result (routers.exercises.deploy_exercise_infrastructure (S := demo.services)
            "e2" (container.mkContainerRequestDTO (JNum 60)) demo.root
            (demo.at_time demo.during))
  = Raise (HTTPException 400 (JStr "Exercício sem imagem Docker configurada"))
  /\ calls (routers.exercises.deploy_exercise_infrastructure (S := demo.services)
              "e1" (container.mkContainerRequestDTO (JNum 60)) demo.root
              (demo.at_time demo.during))
     = [Http (mkRequest "GET" "/exercises/e1" None []);
        StartContainer
          (JDict [("image_link", JStr "ctf/pwn101:1"); ("time_alive", JNum 60);
                  ("exercise_name", JStr "pwn101");
                  ("callback_url", JStr "http://backend:8000/containers/callback")]);
        Http (mkRequest "POST" "/containers/"
                (Some (JDict [("docker_id", JStr "4f2a");
                              ("image_tag", JStr "ctf/pwn101:1");
                              ("port", JNum 31337);
                              ("connection", JStr "10.0.0.7")]))
                [("exercises_id", "e1")])]
  /\ calls (routers.exercises.deploy_exercise_infrastructure (S := demo.services)
              "e1" (container.mkContainerRequestDTO (JNum 60)) demo.root
              (demo.mkWorld demo.during demo.interpreter_db demo.orchester_down O))
     = [Http (mkRequest "GET" "/exercises/e1" None []);
        StartContainer
          (JDict [("image_link", JStr "ctf/pwn101:1"); ("time_alive", JNum 60);
                  ("exercise_name", JStr "pwn101");
                  ("callback_url", JStr "http://backend:8000/containers/callback")])].
Proof.
  split; [| split].
  - refine (proj1 (proj1 (deploy_provision_then_register (S := demo.services)
              "e2" (container.mkContainerRequestDTO (JNum 60)) demo.root
              (demo.at_time demo.during) demo.quiz _ _ eq_refl eq_refl) _)).
    right. eexists. split; [reflexivity |].
    intros image H. injection H as <-. reflexivity.
  - refine (proj2 (proj2 (proj1 (proj2 (deploy_provision_then_register
              (S := demo.services)
              "e1" (container.mkContainerRequestDTO (JNum 60)) demo.root
              (demo.at_time demo.during) demo.pwn101 _ _ eq_refl eq_refl))
              (JStr "ctf/pwn101:1") (JStr "pwn101") eq_refl eq_refl eq_refl)
              _ _ (JStr "4f2a") (JNum 31337) (JStr "10.0.0.7") _
              eq_refl eq_refl eq_refl eq_refl eq_refl)).
  - refine (proj2 (proj1 (proj1 (proj2 (deploy_provision_then_register
              (S := demo.services)
              "e1" (container.mkContainerRequestDTO (JNum 60)) demo.root
              (demo.mkWorld demo.during demo.interpreter_db demo.orchester_down O)
              demo.pwn101 _ _ eq_refl eq_refl))
              (JStr "ctf/pwn101:1") (JStr "pwn101") eq_refl eq_refl eq_refl)
              _ _ eq_refl)).
Defined.


(** * Further properties of the client and of the handlers *)

(** ** [_request]: the other outcomes *)

(** X1. A response whose status is below 400 and is not 204 makes
    [_request] return the parsed JSON body, having sent one request. *)
Theorem request_returns_body (S : Services) m e j p (w : World) resp w1 v :
  client_request (mkRequest m e j p) w = (inl resp, w1) ->
  status_code resp < 400 ->
  status_code resp <> 204 ->
  body resp = Some v ->
  interpreter._request m e j p w = (Ret v, w1, [Http (mkRequest m e j p)]).
Proof.
  intros Hans Hlt Hne Hbody. rewrite request_run, Hans. cbn [fst snd interpreter.classify].
  destruct (Z.eqb_spec (status_code resp) 404) as [Heq | _]; [lia |].
  destruct (Z.eqb_spec (status_code resp) 204) as [Heq | _]; [contradiction |].
  replace (400 <=? status_code resp) with false by (symmetry; apply Z.leb_gt; lia).
  replace (500 <=? status_code resp) with false by (symmetry; apply Z.leb_gt; lia).
  cbn [andb]. unfold interpreter.response_json. rewrite Hbody. reflexivity.
Qed.

Lemma request_returns_body_witness :
  result (interpreter._request (S := demo.services) "POST" "/containers/" None []
            (demo.at_time 0))
  = Ret (JDict [("id", JStr "k1")]).
Proof.
  rewrite (request_returns_body demo.services "POST" "/containers/" None []
             (demo.at_time 0) (mkResponse 201 (Some (JDict [("id", JStr "k1")])))
             (demo.serve (demo.at_time 0)) (JDict [("id", JStr "k1")]) eq_refl);
    [reflexivity | simpl; lia | simpl; lia | reflexivity].
Defined.

(** X2. A body that is not what [_request] expects escapes as a plain Python
    exception, not as an [HTTPException]: below 400 (204 apart) a body that
    is not JSON raises [ValueError]; for a 4xx other than 404, a body that
    is not JSON raises [ValueError] and a JSON body that is not an object
    raises [AttributeError]. *)
Theorem request_malformed_body_escapes (S : Services) m e j p (w : World) resp w1 :
  client_request (mkRequest m e j p) w = (inl resp, w1) ->
  status_code resp <> 404 ->
  status_code resp <> 204 ->
  status_code resp < 500 ->
  (body resp = None -> result (interpreter._request m e j p w) = Raise ValueError)
  /\
  (400 <= status_code resp ->
   forall v, body resp = Some v -> (forall fields, v <> JDict fields) ->
     result (interpreter._request m e j p w) = Raise AttributeError).
Proof.
  intros Hans H404 H204 Hlt. rewrite request_run, Hans.
  cbn [fst snd result interpreter.classify].
  destruct (Z.eqb_spec (status_code resp) 404) as [Heq | _]; [contradiction |].
  destruct (Z.eqb_spec (status_code resp) 204) as [Heq | _]; [contradiction |].
  replace (status_code resp <? 500) with true by (symmetry; apply Z.ltb_lt; lia).
  replace (500 <=? status_code resp) with false by (symmetry; apply Z.leb_gt; lia).
  rewrite andb_true_r. unfold interpreter.response_json. split.
  - intros Hbody. rewrite Hbody. destruct (400 <=? status_code resp); reflexivity.
  - intros Hlo v Hbody Hnot. rewrite Hbody.
    replace (400 <=? status_code resp) with true by (symmetry; apply Z.leb_le; lia).
    destruct v; try reflexivity. exfalso. apply (Hnot fields). reflexivity.
Qed.

Lemma request_malformed_body_escapes_witness :
  result (interpreter._request (S := demo.services) "GET" "/version" None []
            (demo.full_at_time 0)) = Raise ValueError
  /\ result (interpreter._request (S := demo.services) "GET" "/teapot" None []
               (demo.full_at_time 0)) = Raise AttributeError.
Proof.
  split.
  - refine (proj1 (request_malformed_body_escapes demo.services "GET" "/version" None []
              (demo.full_at_time 0) (mkResponse 200 None) _ eq_refl _ _ _) eq_refl);
      simpl; lia.
  - refine (proj2 (request_malformed_body_escapes demo.services "GET" "/teapot" None []
              (demo.full_at_time 0)
              (mkResponse 418 (Some (JList [JStr "short and stout"]))) _ eq_refl _ _ _)
              _ _ eq_refl _); simpl; try lia.
    intros fields H. discriminate H.
Defined.

(** X3. Given what the call of [client.request] did, [_request] ends in one
    of these ways only. If the call returned a response: a value, an
    [HTTPException] carrying the response's own 4xx status (never 404) or
    502 for a status from 500 up, or [ValueError] or [AttributeError] on a
    malformed body. If the call raised: an [HTTPException] 503 for an
    [httpx.RequestError], and the very exception of the call otherwise (so
    httpx's [InvalidURL] leaves [_request] as it is). In no case does a
    [RequestError] leave [_request]. *)
Theorem request_outcomes (S : Services) m e j p (w : World) ans w1 :
  client_request (mkRequest m e j p) w = (ans, w1) ->
  (forall msg, result (interpreter._request m e j p w) <> Raise (RequestError msg))
  /\
  match ans with
  | inl resp =>
      match result (interpreter._request m e j p w) with
      | Ret _ => True
      | Raise (HTTPException c _) =>
          (c = status_code resp /\ 400 <= c < 500 /\ c <> 404)
          \/ (c = 502 /\ 500 <= status_code resp)
      | Raise ValueError => True
      | Raise AttributeError => True
      | Raise _ => False
      end
  | inr (RequestError exc) =>
      result (interpreter._request m e j p w)
      = Raise (HTTPException 503 (JStr ("Falha de conexão: " ++ exc)))
  | inr other => result (interpreter._request m e j p w) = Raise other
  end.
Proof.
  intros Hans. rewrite request_run, Hans. cbn [result fst].
  destruct ans as [resp | exc]; cbn [interpreter.classify].
  2: { destruct exc; split; try reflexivity; intros ? H; discriminate H. }
  destruct (Z.eqb_spec (status_code resp) 404) as [Heq | H404];
    [split; [intros ? H; discriminate H | exact I] |].
  destruct (Z.eqb_spec (status_code resp) 204) as [Heq | H204];
    [split; [intros ? H; discriminate H | exact I] |].
  destruct (Z.leb_spec 400 (status_code resp)) as [Hlo | Hlo];
    destruct (Z.ltb_spec (status_code resp) 500) as [Hhi | Hhi]; cbn [andb].
  - unfold interpreter.response_json. destruct (body resp) as [v |]; cbn [and_then];
      [| split; [intros ? H; discriminate H | exact I]].
    destruct v; cbn [get_default and_then];
      try (split; [intros ? H; discriminate H | exact I]).
    destruct (lookup "detail" fields);
      (split; [intros ? H; discriminate H | left; repeat split; (lia || assumption)]).
  - replace (500 <=? status_code resp) with true by (symmetry; apply Z.leb_le; lia).
    split; [intros ? H; discriminate H | right; split; [reflexivity | lia]].
  - replace (500 <=? status_code resp) with false by (symmetry; apply Z.leb_gt; lia).
    unfold interpreter.response_json.
    destruct (body resp); (split; [intros ? H; discriminate H | exact I]).
  - lia.
Qed.

Lemma request_outcomes_witness :
  result (interpreter._request (S := demo.services) "GET" demo.two_lines None []
            (demo.full_at_time 0))
  = Raise (InvalidURL "Invalid non-printable ASCII character in URL")
  /\ result (interpreter._request (S := demo.services) "GET" "/tags/" None []
               (demo.full_at_time 0))
     = Raise (HTTPException 503 (JStr "Falha de conexão: All connection attempts failed")).
Proof.
  split.
  - exact (proj2 (request_outcomes demo.services "GET" demo.two_lines None []
                    (demo.full_at_time 0) _ _ eq_refl)).
  - exact (proj2 (request_outcomes demo.services "GET" "/tags/" None []
                    (demo.full_at_time 0) _ _ eq_refl)).
Defined.

(** ** The exercises router: the admin gate *)

Section ExercisesGate.
Context {S : Services}.

(** X4. Each of the ten admin-only handlers of the exercises router turns
    away a caller whose role is not "admin" with 403 "Acesso negado", before
    any downstream call and leaving the downstream state untouched. *)
Theorem exercises_admin_gate (user : auth.AuthToken) (w : World) :
  auth.role user <> "admin" ->
  let denied : outcome json * World * list event :=
    (Raise (HTTPException 403 (JStr "Acesso negado")), w, []) in
  (forall payload, routers.exercises.create_exercise payload user w = denied)
  /\ (forall ex_id, routers.exercises.get_exercise_admin ex_id user w = denied)
  /\ (forall ex_id comp_id, routers.exercises.link_to_competition ex_id comp_id user w = denied)
  /\ (forall ex_id tag_id, routers.exercises.link_to_tag ex_id tag_id user w = denied)
  /\ (forall ex_id payload, routers.exercises.update_exercise ex_id payload user w = denied)
  /\ (forall ex_id, routers.exercises.delete_exercise ex_id user w = denied)
  /\ (forall ex_id, routers.exercises.get_exercise_competitions ex_id user w = denied)
  /\ (forall ex_id comp_id,
        routers.exercises.unlink_from_competition ex_id comp_id user w = denied)
  /\ (forall ex_id tag_id, routers.exercises.unlink_from_tag ex_id tag_id user w = denied)
  /\ (forall ex_id payload,
        routers.exercises.deploy_exercise_infrastructure ex_id payload user w = denied).
Proof.
  intros Hrole denied. apply String.eqb_neq in Hrole.
  unfold routers.exercises.create_exercise, routers.exercises.get_exercise_admin,
    routers.exercises.link_to_competition, routers.exercises.link_to_tag,
    routers.exercises.update_exercise, routers.exercises.delete_exercise,
    routers.exercises.get_exercise_competitions,
    routers.exercises.unlink_from_competition, routers.exercises.unlink_from_tag,
    routers.exercises.deploy_exercise_infrastructure.
  rewrite Hrole. repeat split.
Qed.

(** X5. For an admin, [get_exercise_admin] answers 404 "Exercício não
    encontrado" when the interpreter answers the lookup with status 404 (the
    [None] of the client becomes a 404 again), and hands over the
    interpreter's JSON object when the lookup succeeds with a non-empty
    one. *)
Theorem get_exercise_admin_not_found (ex_id : string) (user : auth.AuthToken)
    (w : World) (resp : Response) (w1 : World) :
  auth.role user = "admin" ->
  client_request (mkRequest "GET" ("/exercises/" ++ ex_id) None []) w = (inl resp, w1) ->
  (status_code resp = 404 ->
     routers.exercises.get_exercise_admin ex_id user w
     = (Raise (HTTPException 404 (JStr "Exercício não encontrado")), w1,
        [Http (mkRequest "GET" ("/exercises/" ++ ex_id) None [])]))
  /\
  (forall kv fields,
     status_code resp = 200 -> body resp = Some (JDict (kv :: fields)) ->
     routers.exercises.get_exercise_admin ex_id user w
     = (Ret (JDict (kv :: fields)), w1,
        [Http (mkRequest "GET" ("/exercises/" ++ ex_id) None [])])).
Proof.
  intros Hrole Hans. unfold routers.exercises.get_exercise_admin.
  rewrite Hrole. cbn [String.eqb Ascii.eqb Bool.eqb negb].
  unfold bind, interpreter.get_exercise. rewrite request_run, Hans.
  cbn [fst snd interpreter.classify]. split.
  - intros Hc. rewrite Hc. reflexivity.
  - intros kv fields Hc Hbody. rewrite Hc. unfold interpreter.response_json.
    rewrite Hbody. reflexivity.
Qed.
End ExercisesGate.

Lemma exercises_admin_gate_witness :
  routers.exercises.delete_exercise (S := demo.services) "e1" demo.ana (demo.at_time 0)
  = (Raise (HTTPException 403 (JStr "Acesso negado")), demo.at_time 0, []).
Proof.
  refine (proj1 (proj2 (proj2 (proj2 (proj2 (proj2
            (exercises_admin_gate (S := demo.services) demo.ana (demo.at_time 0) _))))))
            "e1").
  simpl. discriminate.
Defined.

Lemma get_exercise_admin_not_found_witness :
  result (routers.exercises.get_exercise_admin (S := demo.services) "e9" demo.root
            (demo.at_time 0))
  = Raise (HTTPException 404 (JStr "Exercício não encontrado"))
  /\ result (routers.exercises.get_exercise_admin (S := demo.services) "e1" demo.root
               (demo.at_time 0))
     = Ret demo.pwn101.
Proof.
  split.
  - rewrite (proj1 (get_exercise_admin_not_found (S := demo.services) "e9" demo.root
               (demo.at_time 0) _ _ eq_refl eq_refl) eq_refl).
    reflexivity.
  - rewrite (proj2 (get_exercise_admin_not_found (S := demo.services) "e1" demo.root
               (demo.at_time 0) _ _ eq_refl eq_refl) _ _ eq_refl eq_refl).
    reflexivity.
Defined.

(** ** Handlers behind [GET] routes *)

(** Runs a handler symbolically: each client call is replaced by its one
    request, and every branch of the handler is followed. *)
Ltac follow_branches :=
  unfold bind, try_except, lift, raise, ret;
  repeat first
    [ rewrite request_run
    | progress cbn [fst snd calls result final app negb andb and_then forallb is_read
                    method json_body]
    | match goal with
      | |- context [match ?x with _ => _ end] =>
          match x with
          | context [match _ with _ => _ end] => fail 1
          | _ => destruct x
          end
      end ].

Section ReadOnly.
Context {S : Services}.

(** X6. The ten handlers that serve [GET] routes never write downstream:
    for every caller and every downstream state, each call they make is a
    [GET] without a body. *)
Theorem get_handlers_only_read (user : auth.AuthToken) (w : World) :
  forallb is_read (calls (routers.exercises.list_all_exercises user w)) = true
  /\ (forall ex_id comp_id,
        forallb is_read
          (calls (routers.exercises.get_connection_info ex_id comp_id user w)) = true)
  /\ forallb is_read (calls (routers.exercises.get_my_solves user w)) = true
  /\ (forall ex_id,
        forallb is_read (calls (routers.exercises.get_exercise_admin ex_id user w)) = true)
  /\ (forall ex_id,
        forallb is_read
          (calls (routers.exercises.get_exercise_competitions ex_id user w)) = true)
  /\ forallb is_read (calls (routers.scoreboard.get_global_scoreboard user w)) = true
  /\ (forall comp_id,
        forallb is_read
          (calls (routers.scoreboard.get_competition_scoreboard comp_id user w)) = true)
  /\ forallb is_read (calls (routers.attendance.get_all_attendances user w)) = true
  /\ (forall user_id,
        forallb is_read
          (calls (routers.attendance.get_user_attendance user_id user w)) = true)
  /\ (forall competition_id,
        forallb is_read
          (calls (routers.attendance.get_competition_attendance competition_id user w))
        = true).
Proof.
  repeat split; intros.
  - unfold routers.exercises.list_all_exercises, interpreter.list_all_exercises.
    follow_branches; reflexivity.
  - unfold routers.exercises.get_connection_info, interpreter.get_container_by_exercise.
    follow_branches; reflexivity.
  - unfold routers.exercises.get_my_solves, interpreter.get_user_solves.
    follow_branches; reflexivity.
  - unfold routers.exercises.get_exercise_admin, interpreter.get_exercise.
    follow_branches; reflexivity.
  - unfold routers.exercises.get_exercise_competitions,
      interpreter.get_exercise_competitions.
    follow_branches; reflexivity.
  - unfold routers.scoreboard.get_global_scoreboard, interpreter.get_global_scoreboard.
    follow_branches; reflexivity.
  - unfold routers.scoreboard.get_competition_scoreboard,
      interpreter.get_competition_participants, interpreter.get_scoreboard.
    follow_branches; reflexivity.
  - unfold routers.attendance.get_all_attendances, interpreter.get_all_attendances.
    follow_branches; reflexivity.
  - unfold routers.attendance.get_user_attendance, interpreter.get_user_attendance.
    follow_branches; reflexivity.
  - unfold routers.attendance.get_competition_attendance,
      interpreter.get_competition_attendance.
    follow_branches; reflexivity.
Qed.
End ReadOnly.

(** ** Order and number of downstream calls *)

Section CallOrder.
Context {S : Services}.

(** X7. Whatever the caller, the payload and the downstream state, the
    downstream calls of [submit_flag] are a prefix of: the lookup of the
    competition, the list of its exercises, the post of the submission. So
    it makes at most three calls, posts at most once, and never posts
    before both reads. *)
Theorem submit_flag_call_order (payload : solve.SolveSubmitDTO) (user : auth.AuthToken)
    (w : World) :
  let cid := solve.competitions_id payload in
  let lookup_competition := Http (mkRequest "GET" ("/competitions/" ++ cid) None []) in
  let list_exercises :=
    Http (mkRequest "GET" ("/competitions/" ++ cid ++ "/exercises") None []) in
  let post :=
    Http (mkRequest "POST" "/solves/submit" (Some (solve.dumped payload))
            [("users_id", auth.id user)]) in
  let t := calls (routers.exercises.submit_flag payload user w) in
  exists rest, (t ++ rest)%list = [lookup_competition; list_exercises; post].
Proof.
  intros cid lookup_competition list_exercises post t. subst t.
  unfold routers.exercises.submit_flag, interpreter.get_competition,
    interpreter.get_competition_exercises, interpreter.submit_flag, now_utc.
  follow_branches; eexists; reflexivity.
Qed.

(** X8. [submit_flag] posts a submission only after the interpreter has
    returned the exercises of the competition and the scan of that answer
    for the submitted [exercises_id] has answered [True]. *)
Theorem submit_flag_forwarded_only_if_member (payload : solve.SolveSubmitDTO)
    (user : auth.AuthToken) (w : World) :
  made_call "POST" "/solves/submit" (calls (routers.exercises.submit_flag payload user w))
  = true ->
  exists comp w1 t1 comp_exercises w2 t2,
    interpreter.get_competition (solve.competitions_id payload) w = (Ret comp, w1, t1)
    /\ interpreter.get_competition_exercises (solve.competitions_id payload) w1
       = (Ret comp_exercises, w2, t2)
    /\ any_field_eq comp_exercises "id" (solve.exercises_id payload) = Ret true.
Proof.
  destruct (interpreter.get_competition (solve.competitions_id payload) w)
    as [[[comp | x] w1] t1] eqn:Hcomp.
  2: { unfold routers.exercises.submit_flag, bind. rewrite Hcomp.
       apply request_calls_inv in Hcomp. subst t1. intros H. discriminate H. }
  rewrite (submit_flag_run _ _ _ _ _ _ Hcomp).
  pose proof (request_calls_inv _ _ _ _ _ _ _ _ Hcomp) as Ht1. subst t1.
  destruct (negb (truthy comp)); [intros H; discriminate H |].
  destruct (routers.exercises.competition_window comp) as [[start_date end_date] | x];
    [| intros H; discriminate H].
  destruct (utcnow w1 <? utc_instant start_date); [intros H; discriminate H |].
  destruct (utc_instant end_date <? utcnow w1); [intros H; discriminate H |].
  cbv zeta.
  destruct (interpreter.get_competition_exercises (solve.competitions_id payload) w1)
    as [[[exs | x] w2] t2] eqn:Hexs;
    pose proof (request_calls_inv _ _ _ _ _ _ _ _ Hexs) as Ht2; subst t2;
    cbn [result final calls fst snd]; [| intros H; discriminate H].
  destruct (any_field_eq exs "id" (solve.exercises_id payload)) as [[|] | x] eqn:Hany;
    try (intros H; discriminate H).
  intros _. do 6 eexists. repeat split; eassumption.
Qed.

(** X9. Whatever the caller and the downstream state, the calls of
    [deploy_exercise_infrastructure] are a prefix of: the lookup of the
    exercise, one call of the orchestrator, one registration. The
    orchestrator is never called twice, and nothing is registered that was
    not provisioned just before. *)
Theorem deploy_call_order (ex_id : string) (payload : container.ContainerRequestDTO)
    (user : auth.AuthToken) (w : World) :
  let lookup_exercise := Http (mkRequest "GET" ("/exercises/" ++ ex_id) None []) in
  let registration (data : json) :=
    Http (mkRequest "POST" "/containers/" (Some data) [("exercises_id", ex_id)]) in
  let t := calls (routers.exercises.deploy_exercise_infrastructure ex_id payload user w) in
  t = []
  \/ t = [lookup_exercise]
  \/ (exists request, t = [lookup_exercise; StartContainer request])
  \/ (exists request data,
        t = [lookup_exercise; StartContainer request; registration data]).
Proof.
  intros lookup_exercise registration t. subst t.
  unfold routers.exercises.deploy_exercise_infrastructure, interpreter.get_exercise,
    interpreter.register_container, start_container.
  follow_branches;
    first [ left; reflexivity
          | right; left; reflexivity
          | right; right; left; eexists; reflexivity
          | right; right; right; eexists; eexists; reflexivity ].
Qed.

(** X10. Whatever the caller and the downstream state, the downstream calls
    of [record_attendance] are a prefix of: the read of the history of the
    target user, one post of the attendance with [users_id] set to that same
    user; and it posts only after the scan of the history for the
    competition of the payload has answered [False]. *)
Theorem record_attendance_call_order (payload : attendance.AttendanceCreateDTO)
    (user : auth.AuthToken) (w : World) :
  let target := routers.attendance.target_user_id payload user in
  let read_history := Http (mkRequest "GET" ("/attendance/user/" ++ target) None []) in
  let post :=
    Http (mkRequest "POST" "/attendance/"
            (Some (attendance.dump_AttendanceCreateDTO payload)) [("users_id", target)]) in
  let t := calls (routers.attendance.record_attendance payload user w) in
  (exists rest, (t ++ rest)%list = [read_history; post])
  /\
  (made_call "POST" "/attendance/" t = true ->
     exists user_history w1 t1,
       interpreter.get_user_attendance target w = (Ret user_history, w1, t1)
       /\ any_field_eq user_history "competitions_id" (attendance.competitions_id payload)
          = Ret false).
Proof.
  intros target read_history post t. subst t.
  rewrite record_attendance_run. fold target. cbv zeta.
  destruct (interpreter.get_user_attendance target w) as [[[history | x] w1] t1] eqn:Hh;
    pose proof (request_calls_inv _ _ _ _ _ _ _ _ Hh) as Ht1; subst t1;
    cbn [result final calls fst snd].
  2: { split; [eexists; reflexivity | intros H; discriminate H]. }
  destruct (any_field_eq history "competitions_id" _) as [[|] | x] eqn:Hany;
    cbn [calls snd].
  - split; [eexists; reflexivity | intros H; discriminate H].
  - unfold interpreter.record_attendance. rewrite request_run. cbn [calls snd app].
    split; [exists []; reflexivity |].
    intros _. do 3 eexists. split; [reflexivity | exact Hany].
  - split; [eexists; reflexivity | intros H; discriminate H].
Qed.
End CallOrder.

Lemma submit_flag_forwarded_only_if_member_witness :
  made_call "POST" "/solves/submit"
    (calls (routers.exercises.submit_flag (S := demo.services)
              (demo.flag_for "e1") demo.ana (demo.at_time demo.during))) = true
  /\ exists comp w1 t1 comp_exercises w2 t2,
       interpreter.get_competition (S := demo.services) "c1" (demo.at_time demo.during)
       = (Ret comp, w1, t1)
       /\ interpreter.get_competition_exercises (S := demo.services) "c1" w1
          = (Ret comp_exercises, w2, t2)
       /\ any_field_eq comp_exercises "id" "e1" = Ret true.
Proof.
  split; [reflexivity |].
  exact (submit_flag_forwarded_only_if_member (S := demo.services)
           (demo.flag_for "e1") demo.ana (demo.at_time demo.during) eq_refl).
Defined.

Lemma record_attendance_call_order_witness :
  made_call "POST" "/attendance/"
    (calls (routers.attendance.record_attendance (S := demo.services)
              (attendance.mkAttendanceCreateDTO "c1" None false) demo.bob
              (demo.at_time demo.during))) = true
  /\ exists user_history w1 t1,
       interpreter.get_user_attendance (S := demo.services) "u2" (demo.at_time demo.during)
       = (Ret user_history, w1, t1)
       /\ any_field_eq user_history "competitions_id" "c1" = Ret false.
Proof.
  split; [reflexivity |].
  exact (proj2 (record_attendance_call_order (S := demo.services)
                  (attendance.mkAttendanceCreateDTO "c1" None false) demo.bob
                  (demo.at_time demo.during)) eq_refl).
Defined.

(** ** The attendance router: what reaches the caller *)

Section AttendanceErrors.
Context {S : Services}.

(** X11. [record_attendance] never lets a plain Python exception out: for
    every caller, payload and downstream state it returns a value or raises
    an [HTTPException]. *)
Theorem record_attendance_only_http_errors (payload : attendance.AttendanceCreateDTO)
    (user : auth.AuthToken) (w : World) :
  match result (routers.attendance.record_attendance payload user w) with
  | Ret _ => True
  | Raise (HTTPException _ _) => True
  | Raise _ => False
  end.
Proof.
  rewrite record_attendance_run. cbv zeta.
  destruct (result (interpreter.get_user_attendance _ w)) as [history | x].
  - destruct (any_field_eq history _ _) as [[|] | x]; cbn [result fst].
    + exact I.
    + destruct (result (interpreter.record_attendance payload _ _)) as [v | x];
        [exact I | destruct x; exact I].
    + destruct x; exact I.
  - destruct x; exact I.
Qed.

(** X12. An [HTTPException] raised by the read of the history passes
    through [record_attendance] with its status and detail, and nothing is
    posted; a history that is [None], or whose scan raises, becomes a 500
    "Erro interno ao registrar presença.", and nothing is posted either. *)
Theorem record_attendance_read_failure (payload : attendance.AttendanceCreateDTO)
    (user : auth.AuthToken) (w : World) (w1 : World) (t1 : list event) :
  let target := routers.attendance.target_user_id payload user in
  let r := routers.attendance.record_attendance payload user w in
  let internal := HTTPException 500 (JStr "Erro interno ao registrar presença.") in
  (forall c d,
     interpreter.get_user_attendance target w = (Raise (HTTPException c d), w1, t1) ->
     r = (Raise (HTTPException c d), w1, t1))
  /\
  (forall user_history x,
     interpreter.get_user_attendance target w = (Ret user_history, w1, t1) ->
     any_field_eq user_history "competitions_id" (attendance.competitions_id payload)
     = Raise x ->
     x = TypeError \/ (exists k, x = KeyError k) ->
     r = (Raise internal, w1, t1))
  /\
  (interpreter.get_user_attendance target w = (Ret JNull, w1, t1) ->
   r = (Raise internal, w1, t1)).
Proof.
  intros target r internal. subst r.
  rewrite record_attendance_run. fold target. cbv zeta.
  split; [| split].
  - intros c d H. rewrite H. reflexivity.
  - intros history x H Hany Hx. rewrite H. cbn [result final calls fst snd].
    rewrite Hany. destruct Hx as [-> | [k ->]]; reflexivity.
  - intros H. rewrite H. reflexivity.
Qed.

(** The shape shared by the three reading handlers. *)
Lemma read_with_count_run (c : M json) (E : exn) (w : World) :
  try_except (attendances <- c ;;
              count <- lift (py_len attendances) ;;
              ret attendances)
             (fun e => raise E) w
  = match c w with
    | (Ret v, w1, t1) =>
        match py_len v with
        | Ret _ => (Ret v, w1, t1)
        | Raise _ => (Raise E, w1, t1)
        end
    | (Raise _, w1, t1) => (Raise E, w1, t1)
    end.
Proof.
  unfold try_except, bind, lift, ret, raise.
  destruct (c w) as [[[v | x] w1] t1]; [| rewrite app_nil_r; reflexivity].
  destruct (py_len v); cbn [app]; rewrite !app_nil_r; reflexivity.
Qed.
End AttendanceErrors.

Section AttendanceReads.
Context {S : Services}.

(** X13. Each of the three handlers that read attendances answers in one of
    three ways only: a value that has a length (a list, a dict or a string),
    its own 403, or its own 500. No status of the interpreter and no plain
    Python exception reaches the caller. *)
Theorem attendance_reads_outcomes (user : auth.AuthToken) (w : World) :
  read_answer "Acesso restrito a administradores." "Erro interno ao processar consulta."
    (result (routers.attendance.get_all_attendances user w))
  /\ (forall user_id,
        read_answer "Acesso negado ao histórico de terceiros."
          "Erro ao recuperar histórico."
          (result (routers.attendance.get_user_attendance user_id user w)))
  /\ (forall competition_id,
        read_answer "Acesso restrito a administradores."
          "Erro ao recuperar registros da competição."
          (result (routers.attendance.get_competition_attendance competition_id user w))).
Proof.
  assert (Hshape : forall (c : M json) forbidden internal,
    read_answer forbidden internal
      (result (try_except (attendances <- c ;;
                           count <- lift (py_len attendances) ;;
                           ret attendances)
                 (fun e => raise (HTTPException 500 (JStr internal))) w))).
  { intros c forbidden internal. rewrite read_with_count_run.
    destruct (c w) as [[[v | x] w1] t1]; cbn.
    - destruct (py_len v) as [n | x] eqn:Hlen; cbn; [exists n; exact Hlen | right; reflexivity].
    - right. reflexivity. }
  split; [| split]; intros.
  - unfold routers.attendance.get_all_attendances.
    destruct (negb _); [left; reflexivity | apply Hshape].
  - unfold routers.attendance.get_user_attendance.
    destruct (_ && _); [left; reflexivity | apply Hshape].
  - unfold routers.attendance.get_competition_attendance.
    destruct (negb _); [left; reflexivity | apply Hshape].
Qed.

(** X14. For an admin, every failure of the interpreter reaches the caller
    of [get_all_attendances] as the handler's 500: a transport error, any
    status from 400 up (a 404 included, which the client turns into [None]),
    and a 204. The state and the single request are those of the client. *)
Theorem get_all_attendances_folds_failures (user : auth.AuthToken) (w : World)
    (ans : Response + exn) (w1 : World) :
  auth.role user = "admin" ->
  client_request (mkRequest "GET" "/attendance/" None []) w = (ans, w1) ->
  (exists exc, ans = inr exc)
  \/ (exists resp, ans = inl resp /\ (400 <= status_code resp \/ status_code resp = 204)) ->
  routers.attendance.get_all_attendances user w
  = (Raise (HTTPException 500 (JStr "Erro interno ao processar consulta.")), w1,
     [Http (mkRequest "GET" "/attendance/" None [])]).
Proof.
  intros Hrole Hans Hfail. unfold routers.attendance.get_all_attendances.
  rewrite Hrole. cbn [String.eqb Ascii.eqb Bool.eqb negb].
  rewrite read_with_count_run. unfold interpreter.get_all_attendances.
  rewrite request_run, Hans. cbn [fst snd].
  destruct Hfail as [[exc ->] | [resp [-> Hcode]]]; cbn [interpreter.classify];
    [destruct exc; reflexivity |].
  destruct (Z.eqb_spec (status_code resp) 404) as [_ | H404]; [reflexivity |].
  destruct (Z.eqb_spec (status_code resp) 204) as [_ | H204]; [reflexivity |].
  destruct Hcode as [Hlo | Heq]; [| contradiction].
  replace (400 <=? status_code resp) with true by (symmetry; apply Z.leb_le; lia).
  destruct (status_code resp <? 500) eqn:Hhi; cbn [andb].
  - destruct (interpreter.response_json resp) as [v |]; cbn [and_then]; [| reflexivity].
    destruct (get_default v "detail" _); reflexivity.
  - replace (500 <=? status_code resp) with true
      by (symmetry; apply Z.leb_le; apply Z.ltb_ge in Hhi; lia).
    reflexivity.
Qed.

(** X15. [get_user_attendance] lets a caller who is not an admin read only
    their own history: asking for another user's is refused with 403 before
    any downstream call, and every downstream call such a caller causes is
    the read of their own history. Whoever the caller is, the handler makes
    at most one downstream call, the read of the history asked for. *)
Theorem get_user_attendance_access (user_id : string) (user : auth.AuthToken) (w : World) :
  let r := routers.attendance.get_user_attendance user_id user w in
  (auth.role user <> "admin" -> auth.id user <> user_id ->
     r = (Raise (HTTPException 403 (JStr "Acesso negado ao histórico de terceiros.")),
          w, []))
  /\
  (auth.role user <> "admin" ->
     forall ev, In ev (calls r) ->
       ev = Http (mkRequest "GET" ("/attendance/user/" ++ auth.id user) None []))
  /\
  (calls r = []
   \/ calls r = [Http (mkRequest "GET" ("/attendance/user/" ++ user_id) None [])]).
Proof.
  intros r. subst r. unfold routers.attendance.get_user_attendance.
  assert (Hgo : calls (try_except
                         (attendances <- interpreter.get_user_attendance user_id ;;
                          count <- lift (py_len attendances) ;;
                          ret attendances)
                         (fun e => raise (HTTPException 500
                                            (JStr "Erro ao recuperar histórico."))) w)
                = [Http (mkRequest "GET" ("/attendance/user/" ++ user_id) None [])]).
  { rewrite read_with_count_run. unfold interpreter.get_user_attendance.
    rewrite request_run.
    destruct (interpreter.classify _) as [v | x]; [destruct (py_len v) |]; reflexivity. }
  split; [| split].
  - intros Hrole Hid. apply String.eqb_neq in Hrole, Hid. rewrite Hrole, Hid. reflexivity.
  - intros Hrole ev. apply String.eqb_neq in Hrole. rewrite Hrole. cbn [negb andb].
    destruct (String.eqb_spec (auth.id user) user_id) as [Heq | Hne]; cbn [negb].
    + rewrite Hgo, Heq. intros [<- | []]. reflexivity.
    + intros [].
  - destruct (_ && _); [left; reflexivity | right; exact Hgo].
Qed.
End AttendanceReads.

Lemma record_attendance_read_failure_witness :
  result (routers.attendance.record_attendance (S := demo.services)
            (attendance.mkAttendanceCreateDTO "c1" None false) demo.bob demo.outage)
  = Raise (HTTPException 503 (JStr "Falha de conexão: All connection attempts failed"))
  /\ result (routers.attendance.record_attendance (S := demo.services)
               (attendance.mkAttendanceCreateDTO "c1" (Some "u7") true) demo.root
               (demo.at_time demo.during))
     = Raise (HTTPException 500 (JStr "Erro interno ao registrar presença.")).
Proof.
  split.
  - rewrite (proj1 (record_attendance_read_failure (S := demo.services)
               (attendance.mkAttendanceCreateDTO "c1" None false) demo.bob demo.outage
               _ _) _ _ eq_refl).
    reflexivity.
  - rewrite (proj2 (proj2 (record_attendance_read_failure (S := demo.services)
               (attendance.mkAttendanceCreateDTO "c1" (Some "u7") true) demo.root
               (demo.at_time demo.during) _ _)) eq_refl).
    reflexivity.
Defined.

Lemma get_all_attendances_folds_failures_witness :
  result (routers.attendance.get_all_attendances (S := demo.services) demo.root
            (demo.at_time demo.during))
  = Raise (HTTPException 500 (JStr "Erro interno ao processar consulta."))
  /\ result (routers.attendance.get_all_attendances (S := demo.services) demo.root
               demo.outage)
     = Raise (HTTPException 500 (JStr "Erro interno ao processar consulta.")).
Proof.
  split.
  - rewrite (get_all_attendances_folds_failures (S := demo.services) demo.root
               (demo.at_time demo.during) _ _ eq_refl eq_refl); [reflexivity |].
    right. eexists. split; [reflexivity |]. left. simpl. lia.
  - rewrite (get_all_attendances_folds_failures (S := demo.services) demo.root
               demo.outage _ _ eq_refl eq_refl); [reflexivity |].
    left. eexists. reflexivity.
Defined.

Lemma get_user_attendance_access_witness :
  routers.attendance.get_user_attendance (S := demo.services) "u1" demo.bob
    (demo.at_time demo.during)
  = (Raise (HTTPException 403 (JStr "Acesso negado ao histórico de terceiros.")),
     demo.at_time demo.during, [])
  /\ calls (routers.attendance.get_user_attendance (S := demo.services) "u1" demo.ana
              (demo.at_time demo.during))
     = [Http (mkRequest "GET" "/attendance/user/u1" None [])].
Proof.
  split.
  - apply (proj1 (get_user_attendance_access (S := demo.services) "u1" demo.bob
                    (demo.at_time demo.during))); simpl; discriminate.
  - destruct (proj2 (proj2 (get_user_attendance_access (S := demo.services) "u1" demo.ana
                              (demo.at_time demo.during)))) as [H | H];
      [vm_compute in H; discriminate H | exact H].
Defined.

(** ** [get_connection_info] and [submit_flag]: the failing paths *)

Section FailingPaths.
Context {S : Services}.

(** X16. [get_connection_info] answers 404 "A infraestrutura deste desafio
    não está ativa" when the interpreter knows no container of the exercise
    ([None], as after a downstream 404) and when the container's
    ["is_active"] is missing or falsy; the lookup is its only call. *)
Theorem connection_info_inactive (ex_id comp_id : string) (user : auth.AuthToken)
    (w : World) (container : json) (w1 : World) (t1 : list event) :
  interpreter.get_container_by_exercise ex_id w = (Ret container, w1, t1) ->
  container = JNull
  \/ (exists fields, container = JDict fields
        /\ forall active, lookup "is_active" fields = Some active -> truthy active = false) ->
  routers.exercises.get_connection_info ex_id comp_id user w
  = (Raise (HTTPException 404 (JStr "A infraestrutura deste desafio não está ativa")),
     w1, [Http (mkRequest "GET" ("/containers/exercise/" ++ ex_id) None [])]).
Proof.
  intros Hc Hinactive. unfold routers.exercises.get_connection_info.
  unfold bind at 1. rewrite Hc. apply request_calls_inv in Hc. subst t1.
  unfold bind, lift, raise, routers.exercises.container_inactive.
  destruct Hinactive as [-> | [fields [-> Hfalsy]]]; [reflexivity |].
  destruct fields as [| kv rest]; [reflexivity |]. cbn [truthy negb].
  unfold get, get_default.
  destruct (lookup "is_active" (kv :: rest)) as [active |]; cbn [and_then];
    [rewrite (Hfalsy active eq_refl) |]; reflexivity.
Qed.

(** X17. When the competition was found but one of its two dates cannot be
    read, [submit_flag] answers 500 "Erro interno ao processar datas da
    competição" and makes no further downstream call. *)
Theorem submit_flag_unreadable_dates (payload : solve.SolveSubmitDTO)
    (user : auth.AuthToken) (w : World) (comp : json) (w1 : World) (t1 : list event) :
  interpreter.get_competition (solve.competitions_id payload) w = (Ret comp, w1, t1) ->
  truthy comp = true ->
  unreadable_date comp "start_date" \/ unreadable_date comp "end_date" ->
  routers.exercises.submit_flag payload user w
  = (Raise (HTTPException 500 (JStr "Erro interno ao processar datas da competição")),
     w1, [Http (mkRequest "GET" ("/competitions/" ++ solve.competitions_id payload)
                  None [])]).
Proof.
  intros Hcomp Ht Hbad. rewrite (submit_flag_run _ _ _ _ _ _ Hcomp), Ht. cbn [negb].
  apply request_calls_inv in Hcomp. subst t1.
  assert (Hraise : exists x, routers.exercises.competition_window comp = Raise x).
  { unfold routers.exercises.competition_window, unreadable_date in *.
    destruct Hbad as [Hbad | Hbad].
    - destruct (subscript comp "start_date") as [v | x]; [| eexists; reflexivity].
      cbn [and_then]. destruct v; try (eexists; reflexivity).
      unfold routers.exercises.ensure_utc. rewrite Hbad. eexists; reflexivity.
    - destruct (subscript comp "start_date") as [v | x]; [| eexists; reflexivity].
      cbn [and_then].
      destruct (routers.exercises.ensure_utc v) as [d | x]; [| eexists; reflexivity].
      cbn [and_then].
      destruct (subscript comp "end_date") as [v' | x]; [| eexists; reflexivity].
      cbn [and_then]. destruct v'; try (eexists; reflexivity).
      unfold routers.exercises.ensure_utc at 1. rewrite Hbad. eexists; reflexivity. }
  destruct Hraise as [x ->]. reflexivity.
Qed.

(** X18. A date that [ensure_utc] accepts comes back in UTC (offset 0), at
    the instant the parsed string denotes, a string without offset being
    read as UTC. Hence two stored dates that denote the same instant give
    the same date, whatever offsets they are written with. *)
Theorem ensure_utc_normalises (v1 v2 : json) (d1 d2 : datetime) :
  routers.exercises.ensure_utc v1 = Ret d1 ->
  routers.exercises.ensure_utc v2 = Ret d2 ->
  (utcoffset d1 = Some 0
   /\ exists s p, v1 = JStr s /\ fromisoformat (replace_Z s) = Some p
                  /\ utc_instant d1 = utc_instant p)
  /\
  (utc_instant d1 = utc_instant d2 -> d1 = d2).
Proof.
  assert (Hone : forall v d, routers.exercises.ensure_utc v = Ret d ->
            utcoffset d = Some 0
            /\ exists s p, v = JStr s /\ fromisoformat (replace_Z s) = Some p
                           /\ utc_instant d = utc_instant p).
  { intros v d. unfold routers.exercises.ensure_utc.
    destruct v; try discriminate.
    destruct (fromisoformat (replace_Z s)) as [p |] eqn:Hp; [| discriminate].
    destruct (utcoffset p) as [off |] eqn:Hoff.
    - destruct (in_range (wall_us p - off)); [| discriminate].
      intros H. injection H as <-. split; [reflexivity |].
      exists s, p. repeat split; [exact Hp |].
      unfold utc_instant. rewrite Hoff. cbn. lia.
    - intros H. injection H as <-. split; [reflexivity |].
      exists s, p. repeat split; [exact Hp |].
      unfold utc_instant. rewrite Hoff. cbn. lia. }
  intros H1 H2.
  destruct (Hone _ _ H1) as [Ho1 Hp1]. destruct (Hone _ _ H2) as [Ho2 _].
  split; [split; assumption |].
  unfold utc_instant. rewrite Ho1, Ho2.
  destruct d1 as [us1 o1], d2 as [us2 o2]. cbn in *. subst o1 o2.
  intros H. f_equal. lia.
Qed.
End FailingPaths.

Lemma connection_info_inactive_witness :
  result (routers.exercises.get_connection_info (S := demo.services) "e9" "c1" demo.ana
            (demo.at_time demo.during))
  = Raise (HTTPException 404 (JStr "A infraestrutura deste desafio não está ativa"))
  /\ result (routers.exercises.get_connection_info (S := demo.services) "e2" "c1" demo.ana
               (demo.broken_at_time demo.during))
     = Raise (HTTPException 404 (JStr "A infraestrutura deste desafio não está ativa")).
Proof.
  split.
  - rewrite (connection_info_inactive (S := demo.services) "e9" "c1" demo.ana
               (demo.at_time demo.during) JNull _ _ eq_refl); [reflexivity |].
    left. reflexivity.
  - rewrite (connection_info_inactive (S := demo.services) "e2" "c1" demo.ana
               (demo.broken_at_time demo.during) _ _ _ eq_refl); [reflexivity |].
    right. eexists. split; [reflexivity |].
    intros active H. injection H as <-. reflexivity.
Defined.

Lemma submit_flag_unreadable_dates_witness :
  result (routers.exercises.submit_flag (S := demo.services) demo.flag_c2 demo.ana
            (demo.broken_at_time demo.during))
  = Raise (HTTPException 500 (JStr "Erro interno ao processar datas da competição")).
Proof.
  rewrite (submit_flag_unreadable_dates (S := demo.services) demo.flag_c2 demo.ana
             (demo.broken_at_time demo.during) demo.broken_ctf _ _ eq_refl eq_refl);
    [reflexivity |].
  right. exact I.
Defined.

Lemma ensure_utc_normalises_witness :
  exists d1 d2,
    routers.exercises.ensure_utc (S := demo.services) (JStr "2024-03-02T09:00:00-03:00")
    = Ret d1
    /\ routers.exercises.ensure_utc (S := demo.services) (JStr "2024-03-02T12:00:00Z")
       = Ret d2
    /\ utcoffset d1 = Some 0
    /\ d1 = d2.
Proof.
  do 2 eexists. split; [reflexivity |]. split; [reflexivity |]. split.
  - exact (proj1 (proj1 (ensure_utc_normalises (S := demo.services)
                           (JStr "2024-03-02T09:00:00-03:00")
                           (JStr "2024-03-02T12:00:00Z") _ _ eq_refl eq_refl))).
  - apply (proj2 (ensure_utc_normalises (S := demo.services)
                    (JStr "2024-03-02T09:00:00-03:00")
                    (JStr "2024-03-02T12:00:00Z") _ _ eq_refl eq_refl)).
    reflexivity.
Defined.

(** ** [replace("Z", "+00:00")] and the scans *)

(** X19. The replacement made before parsing a date rewrites every Z and
    nothing else: it distributes over concatenation, so a trailing Z becomes
    a trailing "+00:00"; it leaves a string without Z as it is; and its
    result holds no Z, so applying it twice changes nothing more. *)
Theorem replace_Z_rewrites_every_Z :
  (forall a b, replace_Z (a ++ b) = replace_Z a ++ replace_Z b)
  /\ (forall s, replace_Z (s ++ "Z") = replace_Z s ++ "+00:00")
  /\ (forall s, contains_Z s = false -> replace_Z s = s)
  /\ (forall s, contains_Z (replace_Z s) = false)
  /\ (forall s, replace_Z (replace_Z s) = replace_Z s).
Proof.
  assert (Happ : forall a b, replace_Z (a ++ b) = replace_Z a ++ replace_Z b).
  { induction a as [| c a IH]; intros b; [reflexivity |].
    cbn [append replace_Z]. rewrite IH.
    destruct (c =? "Z")%char; reflexivity. }
  assert (Hfree : forall s, contains_Z s = false -> replace_Z s = s).
  { induction s as [| c s IH]; [reflexivity |].
    cbn [contains_Z replace_Z]. intros H. apply orb_false_iff in H as [Hc Hs].
    rewrite Hc, (IH Hs). reflexivity. }
  assert (Hnone : forall s, contains_Z (replace_Z s) = false).
  { induction s as [| c s IH]; [reflexivity |].
    cbn [replace_Z]. destruct (c =? "Z")%char eqn:Hc.
    - cbn. exact IH.
    - cbn [contains_Z]. rewrite Hc, IH. reflexivity. }
  repeat split.
  - exact Happ.
  - intros s. rewrite Happ. reflexivity.
  - exact Hfree.
  - exact Hnone.
  - intros s. apply Hfree, Hnone.
Qed.

Lemma replace_Z_rewrites_every_Z_witness :
  replace_Z "2024-03-01T12:00:00" = "2024-03-01T12:00:00".
Proof.
  apply (proj1 (proj2 (proj2 replace_Z_rewrites_every_Z))). reflexivity.
Defined.

(** X20. The scan [any(x[k] == s for x in items)] is decided by the first
    item that matches or cannot be subscripted: after items that have the
    key and do not match, a matching item makes it [True] and an item that
    raises makes it raise the same, whatever follows; and over such items
    alone it is [False]. *)
Theorem scan_decided_by_first_hit (k s : string) (before after : list json) (x : json) :
  Forall (has_field k) before ->
  (forall y, In y before -> ~ field_is k s y) ->
  any_field_eq (JList before) k s = Ret false
  /\ (field_is k s x ->
        any_field_eq (JList (before ++ x :: after)) k s = Ret true)
  /\ (forall e, subscript x k = Raise e ->
        any_field_eq (JList (before ++ x :: after)) k s = Raise e).
Proof.
  unfold any_field_eq. cbn [iterate].
  induction 1 as [| y rest [v Hv] _ IH]; intros Hno.
  - split; [reflexivity |]. split.
    + intros Hx. cbn. unfold field_is in Hx. rewrite Hx. cbn.
      rewrite String.eqb_refl. reflexivity.
    + intros e He. cbn. rewrite He. reflexivity.
  - assert (Hy : eq_str v s = false).
    { destruct (eq_str v s) eqn:Heq; [| reflexivity].
      exfalso. apply (Hno y); [left; reflexivity |].
      apply eq_str_true in Heq. unfold field_is. congruence. }
    destruct IH as [IH1 [IH2 IH3]].
    { intros z Hz. apply Hno. right. exact Hz. }
    cbn [py_any app]. rewrite Hv, Hy. repeat split; assumption.
Qed.

Lemma scan_decided_by_first_hit_witness :
  any_field_eq (JList [JDict [("id", JStr "u1")]; JDict [("id", JStr "u2")]; JNum 7])
    "id" "u2" = Ret true
  /\ any_field_eq (JList [JDict [("id", JStr "u1")]; JDict [("name", JStr "x")];
                          JDict [("id", JStr "u2")]])
       "id" "u2" = Raise (KeyError "id").
Proof.
  split.
  - refine (proj1 (proj2 (scan_decided_by_first_hit "id" "u2"
                            [JDict [("id", JStr "u1")]] [JNum 7]
                            (JDict [("id", JStr "u2")]) _ _)) _); [| | reflexivity].
    + repeat constructor. exists (JStr "u1"). reflexivity.
    + intros y [<- | []] H. discriminate H.
  - refine (proj2 (proj2 (scan_decided_by_first_hit "id" "u2"
                            [JDict [("id", JStr "u1")]] [JDict [("id", JStr "u2")]]
                            (JDict [("name", JStr "x")]) _ _)) _ _); [| | reflexivity].
    + repeat constructor. exists (JStr "u1"). reflexivity.
    + intros y [<- | []] H. discriminate H.
Defined.

(** ** Lists the interpreter does not return *)

Section MissingLists.
Context {S : Services}.

(** X21. [get_competition_scoreboard] asks for the scoreboard only for an
    admin, or after the interpreter has returned the participants and the
    scan of that answer for the caller's id has answered [True]. *)
Theorem scoreboard_only_if_registered (comp_id : string) (user : auth.AuthToken) (w : World) :
  made_call "GET" ("/scoreboard/" ++ comp_id)
    (calls (routers.scoreboard.get_competition_scoreboard comp_id user w)) = true ->
  auth.role user = "admin"
  \/ exists participants w1 t1,
       interpreter.get_competition_participants comp_id w = (Ret participants, w1, t1)
       /\ any_field_eq participants "id" (auth.id user) = Ret true.
Proof.
  destruct (String.eqb_spec (auth.role user) "admin") as [Hrole | Hrole];
    [intros _; left; exact Hrole |].
  rewrite (scoreboard_other_run _ _ _ Hrole). cbv zeta.
  destruct (interpreter.get_competition_participants comp_id w)
    as [[[participants | x] w1] t1] eqn:Hp;
    pose proof (request_calls_inv _ _ _ _ _ _ _ _ Hp) as Ht1; subst t1;
    cbn [result final calls fst snd]; [| intros H; discriminate H].
  destruct (any_field_eq participants "id" (auth.id user)) as [[|] | x] eqn:Hany;
    try (intros H; discriminate H).
  intros _. right. do 3 eexists. split; [reflexivity | exact Hany].
Qed.

(** X22. When the interpreter answers the list of participants with [None]
    (as the client does after a downstream 404), a caller who is not an
    admin gets neither the scoreboard nor the 403: the scan raises
    [TypeError], and the scoreboard is not asked for. *)
Theorem scoreboard_participants_none (comp_id : string) (user : auth.AuthToken)
    (w w1 : World) (t1 : list event) :
  auth.role user <> "admin" ->
  interpreter.get_competition_participants comp_id w = (Ret JNull, w1, t1) ->
  routers.scoreboard.get_competition_scoreboard comp_id user w
  = (Raise TypeError, w1,
     [Http (mkRequest "GET" ("/competitions/" ++ comp_id ++ "/participants") None [])]).
Proof.
  intros Hrole Hp. rewrite (scoreboard_other_run _ _ _ Hrole). cbv zeta. rewrite Hp.
  apply request_calls_inv in Hp. subst t1. reflexivity.
Qed.

(** X23. Likewise in [submit_flag]: with the competition found and the time
    in its window, a list of exercises that comes back as [None] makes the
    handler raise [TypeError] instead of its 400, and nothing is posted. *)
Theorem submit_flag_exercises_none (payload : solve.SolveSubmitDTO)
    (user : auth.AuthToken) (w : World) (comp : json) (w1 : World) (t1 : list event)
    (start_date end_date : datetime) (w2 : World) (t2 : list event) :
  interpreter.get_competition (solve.competitions_id payload) w = (Ret comp, w1, t1) ->
  truthy comp = true ->
  routers.exercises.competition_window comp = Ret (start_date, end_date) ->
  utc_instant start_date <= utcnow w1 <= utc_instant end_date ->
  interpreter.get_competition_exercises (solve.competitions_id payload) w1
  = (Ret JNull, w2, t2) ->
  routers.exercises.submit_flag payload user w = (Raise TypeError, w2, (t1 ++ t2)%list)
  /\ made_call "POST" "/solves/submit" (t1 ++ t2)%list = false.
Proof.
  intros Hcomp Ht Hw [Hlo Hhi] Hexs.
  rewrite (submit_flag_run _ _ _ _ _ _ Hcomp), Ht, Hw. cbn [negb].
  replace (utcnow w1 <? utc_instant start_date) with false
    by (symmetry; apply Z.ltb_ge; lia).
  replace (utc_instant end_date <? utcnow w1) with false
    by (symmetry; apply Z.ltb_ge; lia).
  cbv zeta. rewrite Hexs.
  apply request_calls_inv in Hcomp. apply request_calls_inv in Hexs. subst t1 t2.
  split; reflexivity.
Qed.
End MissingLists.

Lemma scoreboard_only_if_registered_witness :
  made_call "GET" "/scoreboard/c1"
    (calls (routers.scoreboard.get_competition_scoreboard (S := demo.services)
              "c1" demo.ana (demo.at_time demo.during))) = true
  /\ (auth.role demo.ana = "admin"
      \/ exists participants w1 t1,
           interpreter.get_competition_participants (S := demo.services) "c1"
             (demo.at_time demo.during) = (Ret participants, w1, t1)
           /\ any_field_eq participants "id" "u1" = Ret true).
Proof.
  split; [reflexivity |].
  exact (scoreboard_only_if_registered (S := demo.services) "c1" demo.ana
           (demo.at_time demo.during) eq_refl).
Defined.

Lemma scoreboard_participants_none_witness :
  result (routers.scoreboard.get_competition_scoreboard (S := demo.services)
            "c9" demo.ana (demo.at_time demo.during))
  = Raise TypeError.
Proof.
  erewrite (scoreboard_participants_none (S := demo.services) "c9" demo.ana
              (demo.at_time demo.during));
    [reflexivity | simpl; discriminate | reflexivity].
Defined.

Lemma submit_flag_exercises_none_witness :
  result (routers.exercises.submit_flag (S := demo.services) demo.flag_c3 demo.ana
            (demo.broken_at_time demo.during))
  = Raise TypeError.
Proof.
  pose proof (submit_flag_exercises_none (S := demo.services) demo.flag_c3 demo.ana
                (demo.broken_at_time demo.during) demo.spring_ctf
                (demo.serve (demo.broken_at_time demo.during))
                [Http (mkRequest "GET" "/competitions/c3" None [])]
                (mkDatetime 63844891200000000 (Some 0))
                (mkDatetime 63844977600000000 (Some 0))
                (demo.serve (demo.serve (demo.broken_at_time demo.during)))
                [Http (mkRequest "GET" "/competitions/c3/exercises" None [])]
                eq_refl eq_refl eq_refl) as H.
  destruct H as [H _]; [vm_compute; split; discriminate | reflexivity |].
  rewrite H. reflexivity.
Defined.
